(** * aws-cdk-library: the MemoryDB [User] construct and the FIS
      [ExperimentTemplate] construct

    A shallow embedding of [src/aws-memorydb/user.ts] and
    [src/aws-fis/experiment-template.ts].

    - A JavaScript string is a [string]; one [ascii] stands for one UTF-16
      code unit, so the embedding covers the strings whose code units are
      below 256.
    - [undefined] for an optional property is [None].
    - A [throw] is the left injection of [Result]; the construct tree a
      constructor attaches children to is threaded as state, and what was
      attached before a [throw] stays attached.
    - aws-cdk-lib is not part of the repository: what the constructs call
      into it is collected in the class [AwsCdkLib]. *)

From Stdlib Require Import String Ascii List Bool Arith Lia ZArith DecimalString.
Import ListNotations.
Local Open Scope string_scope.
Local Open Scope list_scope.

Set Implicit Arguments.

(** ** Exceptions and results *)

(** [Error] is [new Error(message)]; [TypeError] is what reading a property
    of [undefined] raises, with the property that was read. *)
Inductive Exn : Type :=
| Error (message : string)
| TypeError (reading : string).

Definition Result (A : Type) : Type := (Exn + A)%type.

Definition Ok {A : Type} (a : A) : Result A := inr a.
Definition Throw {A : Type} (e : Exn) : Result A := inl e.

Definition isOk {A : Type} (r : Result A) : bool :=
  match r with inr _ => true | inl _ => false end.

(** ** Construction monad: a construct tree under construction, with throw *)

Module Build.

Definition M (St A : Type) : Type := St -> St * Result A.

Definition ret {St A : Type} (a : A) : M St A := fun st => (st, Ok a).

Definition bind {St A B : Type} (c : M St A) (k : A -> M St B) : M St B :=
    fun st =>
      match c st with
      | (st', inr a) => k a st'
      | (st', inl e) => (st', Throw e)
      end.

(** A pure, possibly throwing computation run in the middle of a
      constructor. *)
Definition lift {St A : Type} (r : Result A) : M St A := fun st => (st, r).

(** [new X(this, id, props)] seen from [this]: one more child. *)
Definition attach {St : Type} (add : St -> St) : M St unit :=
    fun st => (add st, Ok tt).

End Build.

Declare Scope build_scope.
Delimit Scope build_scope with build.
Notation "x <- c ;; k" := (Build.bind c (fun x => k))
  (at level 61, c at next level, right associativity) : build_scope.
Notation "c ;; k" := (Build.bind c (fun _ => k))
  (at level 61, right associativity) : build_scope.

(** The same sequencing for pure throwing code. *)
Definition andThen {A B : Type} (r : Result A) (k : A -> Result B) : Result B :=
  match r with
  | inr a => k a
  | inl e => Throw e
  end.

(** ** JavaScript strings *)

Module Js.

(** [String(n)] for a non-negative integer. *)
Definition decimal (n : nat) : string := NilEmpty.string_of_uint (Nat.to_uint n).

Fixpoint startsWith (p s : string) : bool :=
    match p, s with
    | EmptyString, _ => true
    | String a p', String b s' => Ascii.eqb a b && startsWith p' s'
    | String _ _, EmptyString => false
    end.

(** [s.includes(p)] *)
Fixpoint includes (p s : string) : bool :=
    startsWith p s ||
    match s with
    | EmptyString => false
    | String _ s' => includes p s'
    end.

Fixpoint endsWithChar (c : ascii) (s : string) : bool :=
    match s with
    | EmptyString => false
    | String a EmptyString => Ascii.eqb a c
    | String _ s' => endsWithChar c s'
    end.

End Js.

(** ** Regular expressions, as far as [/^...$/.test] needs them *)

Module RegExp.

Definition inRange (lo hi c : ascii) : bool :=
    Nat.leb (nat_of_ascii lo) (nat_of_ascii c) && Nat.leb (nat_of_ascii c) (nat_of_ascii hi).

(** A bracket expression [[a-bc-d...]] is a list of ranges. *)
Definition inClass (ranges : list (ascii * ascii)) (c : ascii) : bool :=
    existsb (fun r => inRange (fst r) (snd r) c) ranges.

Inductive regex : Type :=
  | Void                                   (* matches nothing *)
  | Eps                                    (* the empty pattern *)
  | Chr (c : ascii)                        (* a literal character *)
  | Class (ranges : list (ascii * ascii))  (* [..] *)
  | Cat (r1 r2 : regex)                    (* r1r2 *)
  | Alt (r1 r2 : regex)                    (* r1|r2 *)
  | Star (r : regex).                      (* r* *)

(** [r+] *)
Definition Plus (r : regex) : regex := Cat r (Star r).

Fixpoint nullable (r : regex) : bool :=
    match r with
    | Void => false
    | Eps => true
    | Chr _ => false
    | Class _ => false
    | Cat r1 r2 => nullable r1 && nullable r2
    | Alt r1 r2 => nullable r1 || nullable r2
    | Star _ => true
    end.

Fixpoint deriv (c : ascii) (r : regex) : regex :=
    match r with
    | Void => Void
    | Eps => Void
    | Chr d => if Ascii.eqb c d then Eps else Void
    | Class rs => if inClass rs c then Eps else Void
    | Cat r1 r2 =>
        if nullable r1
        then Alt (Cat (deriv c r1) r2) (deriv c r2)
        else Cat (deriv c r1) r2
    | Alt r1 r2 => Alt (deriv c r1) (deriv c r2)
    | Star r1 => Cat (deriv c r1) (Star r1)
    end.

(** [/^r$/.test(s)]: the whole of [s] is matched by [r].  (No flags: [^]
      and [$] are the two ends of the input.) *)
Fixpoint test (r : regex) (s : string) : bool :=
    match s with
    | EmptyString => nullable r
    | String c s' => test (deriv c r) s'
    end.

(** The language of a pattern, independently of the matcher. *)
Inductive Matches : regex -> string -> Prop :=
  | MEps : Matches Eps ""
  | MChr c : Matches (Chr c) (String c "")
  | MClass rs c : inClass rs c = true -> Matches (Class rs) (String c "")
  | MCat r1 r2 s1 s2 :
      Matches r1 s1 -> Matches r2 s2 -> Matches (Cat r1 r2) (s1 ++ s2)%string
  | MAltL r1 r2 s : Matches r1 s -> Matches (Alt r1 r2) s
  | MAltR r1 r2 s : Matches r2 s -> Matches (Alt r1 r2) s
  | MStarNil r : Matches (Star r) ""
  | MStarApp r s1 s2 :
      Matches r s1 -> Matches (Star r) s2 -> Matches (Star r) (s1 ++ s2)%string.

End RegExp.

(** ** What the constructs use of aws-cdk-lib *)

Module Cdk.

(** [SecretValue]: an opaque handle; [unsafeUnwrap()] gives the raw string. *)
Record SecretValue : Type := { unsafeUnwrap : string }.

Inductive ArnFormat : Type :=
  | NO_RESOURCE_NAME
  | COLON_RESOURCE_NAME
  | SLASH_RESOURCE_NAME
  | SLASH_RESOURCE_SLASH_RESOURCE_NAME.

(** The argument of [Stack.formatArn]; a property the caller leaves out is
      [None]. *)
Record ArnComponents : Type := {
    service : string;
    resource : string;
    resourceName : option string;
    arnFormat : option ArnFormat
  }.

(** The interfaces of other constructs, by the attributes read here. *)
Record IRole : Type := { roleArn : string }.
Record ILogGroup : Type := { logGroupArn : string }.
Record IBucket : Type := { bucketArn : string }.
Record IAlarm : Type := { alarmArn : string }.

Record ServicePrincipal : Type := { principalService : string }.
Record RoleProps : Type := { assumedBy : ServicePrincipal }.

Inductive RetentionDays : Type :=
  | ONE_DAY | ONE_WEEK | ONE_MONTH | ONE_YEAR | INFINITE.
Record LogGroupProps : Type := { retention : RetentionDays }.

Inductive BucketEncryption : Type :=
  | UNENCRYPTED | KMS_MANAGED | S3_MANAGED | KMS.
Record BucketProps : Type := { encryption : BucketEncryption }.

Class AwsCdkLib : Type := {
(** a node of the construct tree, and the stack a node lives in *)
    Construct : Type;
    Stack : Type;
(** the node that [new C(scope, id)] is *)
    newConstruct : Construct -> string -> Construct;
(** [Stack.of(construct)] *)
    Stack_of : Construct -> Stack;
(** [stack.formatArn(components)] *)
    formatArn : Stack -> ArnComponents -> string;
(** [Token.isUnresolved(s)] *)
    Token_isUnresolved : string -> bool;
(** the string token of
        [Lazy.string({ produce: () =>
           Names.uniqueResourceName(c, { separator, maxLength }).toLowerCase() })] *)
    Lazy_uniqueResourceName : Construct -> string -> nat -> string;
(** [attrArn] of the [CfnUser] created as [(scope, id)] *)
    CfnUser_attrArn : Construct -> string -> string;
(** [roleArn], [logGroupArn], [bucketArn] of the [Role], [LogGroup],
        [Bucket] created as [(scope, id)] *)
    Role_roleArn : Construct -> string -> string;
    LogGroup_logGroupArn : Construct -> string -> string;
    Bucket_bucketArn : Construct -> string -> string
  }.

End Cdk.

(** ** aws-memorydb/user.ts *)

(** The L1 resource [aws_memorydb.CfnUser] and its properties. *)
Module aws_memorydb.

Module AuthenticationMode.
(** [{ Type: string; Passwords?: string[] }] *)
Record t : Type := { Type_ : string; Passwords : option (list string) }.
End AuthenticationMode.

Module CfnUserProps.
Record t : Type := {
      userName : string;
      accessString : string;
      authenticationMode : AuthenticationMode.t
    }.
End CfnUserProps.

(** A [CfnUser] that was created: [new CfnUser(scope, id, props)], in a
    construct tree whose nodes are of type [Construct]. *)
Module CfnUser.
Record t (Construct : Type) : Type := {
      scope : Construct;
      id : string;
      props : CfnUserProps.t
    }.
End CfnUser.

End aws_memorydb.

Module MemoryDB.
Import Cdk.
Import aws_memorydb.

Inductive AuthenticationType : Type :=
  | PASSWORD
  | IAM.

(** The string an enum member is at run time. *)
Definition AuthenticationType_value (t : AuthenticationType) : string :=
    match t with
    | PASSWORD => "password"
    | IAM => "iam"
    end.

Definition AuthenticationType_eqb (a b : AuthenticationType) : bool :=
    match a, b with
    | PASSWORD, PASSWORD => true
    | IAM, IAM => true
    | _, _ => false
    end.

Module UserProps.
Record t : Type := {
      userName : option string;
      accessString : option string;
      authenticationType : AuthenticationType;
      passwords : option (list SecretValue)
    }.
End UserProps.

Module UserAttributes.
Record t : Type := { userName : string }.
End UserAttributes.

(** What a caller holds of an [IUser]. *)
Module IUser.
Record t : Type := { userArn : string; userName : string }.
End IUser.

(** [/^[A-Za-z][A-Za-z0-9]*(-[A-Za-z0-9]+)*$/] *)
Definition letters : list (ascii * ascii) :=
    [("A", "Z"); ("a", "z")]%char.
Definition alphanumerics : list (ascii * ascii) :=
    [("A", "Z"); ("a", "z"); ("0", "9")]%char.

Definition userNamePattern : RegExp.regex :=
    RegExp.Cat (RegExp.Class letters)
      (RegExp.Cat (RegExp.Star (RegExp.Class alphanumerics))
         (RegExp.Star
            (RegExp.Cat (RegExp.Chr "-") (RegExp.Plus (RegExp.Class alphanumerics))))).

Definition userNameLengthMessage (userName : string) : string :=
    ("`userName` must be between 1 and 40 characters, got "
       ++ Js.decimal (String.length userName) ++ " characters.")%string.

Definition userNamePatternMessage (userName : string) : string :=
    ("`userName` must consist only of alphanumeric characters or hyphens, with the first character as a letter, and it can't end with a hyphen or contain two consecutive hyphens, got: "
       ++ userName ++ ".")%string.

Definition passwordsRequiredMessage : string :=
    "At least one password must be set to `passwords` when `authenticationType` is set to `AuthenticationType.PASSWORD`.".

Definition passwordsForbiddenMessage : string :=
    "`passwords` can only be set when `authenticationType` is set to `AuthenticationType.PASSWORD`.".

(** A value in a condition: [undefined] is falsy, an array (empty or
      not) is truthy. *)
Definition truthy {A : Type} (v : option (list A)) : bool :=
    match v with
    | Some _ => true
    | None => false
    end.

(** [validateAuthenticationSettings] *)
Definition validateAuthenticationSettings (props : UserProps.t) : Result unit :=
    let authenticationType := UserProps.authenticationType props in
    let passwords := UserProps.passwords props in
    if AuthenticationType_eqb authenticationType PASSWORD && negb (truthy passwords)
    then Throw (Error passwordsRequiredMessage)
    else
      if negb (AuthenticationType_eqb authenticationType PASSWORD) && truthy passwords
      then Throw (Error passwordsForbiddenMessage)
      else Ok tt.

(** [renderAuthenticationMode] *)
Definition renderAuthenticationMode (props : UserProps.t) : AuthenticationMode.t :=
    let authenticationMode :=
      {| AuthenticationMode.Type_ := AuthenticationType_value (UserProps.authenticationType props);
         AuthenticationMode.Passwords := None |} in
    match UserProps.passwords props with
    | Some passwords =>
        {| AuthenticationMode.Type_ := AuthenticationMode.Type_ authenticationMode;
           AuthenticationMode.Passwords := Some (map unsafeUnwrap passwords) |}
    | None => authenticationMode
    end.

Section WithCdk.
Context {cdk : AwsCdkLib}.

(** [user.attrArn] *)
Definition attrArn (user : CfnUser.t Construct) : string :=
      CfnUser_attrArn (CfnUser.scope user) (CfnUser.id user).

(** [UserBase.fromUserAttributes] *)
Definition fromUserAttributes (scope : Construct) (id : string)
        (attrs : UserAttributes.t) : IUser.t :=
      let this := newConstruct scope id in
      {| IUser.userName := UserAttributes.userName attrs;
         IUser.userArn :=
           formatArn (Stack_of this)
             {| service := "memorydb";
                resource := "user";
                resourceName := None;
                arnFormat := None |} |}.

(** [validateUserName].  For [undefined] both disjuncts of the first test
    lead to the same [return]. *)
Definition validateUserName (props : UserProps.t) : Result unit :=
      match UserProps.userName props with
      | None => Ok tt
      | Some userName =>
          if Token_isUnresolved userName then Ok tt
          else
            if Nat.ltb (String.length userName) 1 || Nat.ltb 40 (String.length userName)
            then Throw (Error (userNameLengthMessage userName))
            else
              if negb (RegExp.test userNamePattern userName)
              then Throw (Error (userNamePatternMessage userName))
              else Ok tt
      end.

(** [createResource]: the one place a [CfnUser] is created. *)
Definition createResource (scope : Construct) (id : string)
        (props : CfnUserProps.t)
      : Build.M (list (CfnUser.t Construct)) (CfnUser.t Construct) :=
      let user := {| CfnUser.scope := scope; CfnUser.id := id; CfnUser.props := props |} in
      (Build.attach (fun created => created ++ [user]) ;;
       Build.ret user)%build.

(** The [physicalName] handed to [super]: the given name, or the lazy
        unique name. *)
Definition physicalName (this : Construct) (props : UserProps.t) : string :=
      match UserProps.userName props with
      | Some userName => userName
      | None => Lazy_uniqueResourceName this "-" 40
      end.

(** The object literal passed to [createResource]. *)
Definition cfnUserProps (this : Construct) (props : UserProps.t) : CfnUserProps.t :=
      {| CfnUserProps.userName :=
           match UserProps.userName props with
           | Some userName => userName
           | None => physicalName this props
           end;
         CfnUserProps.accessString :=
           match UserProps.accessString props with
           | Some accessString => accessString
           | None => "off -@all"
           end;
         CfnUserProps.authenticationMode := renderAuthenticationMode props |}.

(** [new User(scope, id, props)] *)
Definition User_new (scope : Construct) (id : string) (props : UserProps.t)
      : Build.M (list (CfnUser.t Construct)) IUser.t :=
      let this := newConstruct scope id in
      (Build.lift (validateUserName props) ;;
       Build.lift (validateAuthenticationSettings props) ;;
       user <- createResource this "Resource" (cfnUserProps this props) ;;
       Build.ret {| IUser.userArn := attrArn user;
                    IUser.userName := CfnUserProps.userName (CfnUser.props user) |})%build.

End WithCdk.

End MemoryDB.


(** ** aws-fis/experiment-template.ts *)

(** The L1 resource [aws_fis.CfnExperimentTemplate] and its property types.
    An object used as a map from keys to values is an association list. *)
Module aws_fis.

Module StopConditionProperty.
Record t : Type := { source : string; value : option string }.
End StopConditionProperty.

Module TargetFilterProperty.
Record t : Type := { path : string; values : list string }.
End TargetFilterProperty.

Module TargetProperty.
Record t : Type := {
    resourceType : string;
    selectionMode : string;
    filters : list TargetFilterProperty.t;
    parameters : list (string * string);
    resourceArns : list string;
    resourceTags : list (string * string)
  }.
End TargetProperty.

Module ActionProperty.
Record t : Type := {
    actionId : string;
    description : string;
    parameters : list (string * string);
    startAfter : list string;
    targets : list (string * string)
  }.
End ActionProperty.

Module ExperimentOptionsProperty.
Record t : Type := {
    accountTargeting : string;
    emptyTargetResolutionMode : string
  }.
End ExperimentOptionsProperty.

Module CloudWatchLogsConfigurationProperty.
Record t : Type := { logGroupArn : string }.
End CloudWatchLogsConfigurationProperty.

Module S3ConfigurationProperty.
Record t : Type := { bucketName : string; prefix : option string }.
End S3ConfigurationProperty.

Module LogConfigurationProperty.
Record t : Type := {
    logSchemaVersion : Z;
    cloudWatchLogsConfiguration : CloudWatchLogsConfigurationProperty.t;
    s3Configuration : S3ConfigurationProperty.t
  }.
End LogConfigurationProperty.

Module CfnExperimentTemplateProps.
Record t : Type := {
    description : string;
    roleArn : string;
    stopConditions : list StopConditionProperty.t;
    targets : list (string * TargetProperty.t);
    actions : list (string * ActionProperty.t);
    experimentOptions : ExperimentOptionsProperty.t;
    logConfiguration : option LogConfigurationProperty.t
  }.
End CfnExperimentTemplateProps.

End aws_fis.

Module Fis.
Import Cdk.
Import aws_fis.

Module StopCondition.
Record t : Type := { source : string; value : option IAlarm }.
End StopCondition.

Module LogConfiguration.
Record t : Type := {
    logSchemaVersion : Z;
    cloudWatchLogLoggingEnabled : bool;
    cloudwatchLogGroup : option ILogGroup;
    s3LoggingEnabled : bool;
    s3LoggingBucket : option IBucket;
    s3LoggingPrefix : option string
  }.
End LogConfiguration.

Inductive AccountTargeting : Type :=
| MULTI_ACCOUNT
| SINGLE_ACCOUNT.

Definition AccountTargeting_value (a : AccountTargeting) : string :=
  match a with
  | MULTI_ACCOUNT => "multi-account"
  | SINGLE_ACCOUNT => "single-account"
  end.

Inductive EmptyTargetResolutionMode : Type :=
| FAIL
| SKIP.

Definition EmptyTargetResolutionMode_value (m : EmptyTargetResolutionMode) : string :=
  match m with
  | FAIL => "fail"
  | SKIP => "skip"
  end.

(** [IFisTarget] and [IFisAction] come from [./target] and [./action]; the
    template is generic in them.  [role] is read with [||], so a caller that
    leaves it out is [None]. *)
Module ExperimentTemplateProps.
Record t (IFisTarget IFisAction : Type) : Type := {
    description : string;
    role : option IRole;
    stopConditions : list StopCondition.t;
    targets : list IFisTarget;
    actions : option (list IFisAction);
    accountTargeting : AccountTargeting;
    emptyTargetResolutionMode : EmptyTargetResolutionMode;
    logConfiguration : option LogConfiguration.t
  }.
End ExperimentTemplateProps.

(** The object under construction.  [cloudWatchLogsGroup] and
    [s3LoggingBucket] are assigned only under their [if]: a field that was
    never assigned reads as [undefined], here [None]. *)
Module ExperimentTemplate.
Record t (Construct IFisTarget IFisAction : Type) : Type := {
    node : Construct;
    props : ExperimentTemplateProps.t IFisTarget IFisAction;
    fisRole : IRole;
    cloudWatchLogsGroup : option ILogGroup;
    s3LoggingBucket : option IBucket
  }.
End ExperimentTemplate.

(** What a constructor call attaches to the construct tree. *)
Inductive Child (Construct : Type) : Type :=
| Role (scope : Construct) (id : string) (props : RoleProps)
| LogGroup (scope : Construct) (id : string) (props : LogGroupProps)
| Bucket (scope : Construct) (id : string) (props : BucketProps)
| CfnExperimentTemplate (scope : Construct) (id : string)
    (props : CfnExperimentTemplateProps.t).

Arguments Role {Construct}.
Arguments LogGroup {Construct}.
Arguments Bucket {Construct}.
Arguments CfnExperimentTemplate {Construct}.

Definition isRole {Construct : Type} (c : Child Construct) : bool :=
  match c with Role _ _ _ => true | _ => false end.

(** The [targets] literal of [createExperimentTemplate]. *)
Definition targetsLiteral : list (string * TargetProperty.t) :=
  [("tartsKey",
    {| TargetProperty.resourceType := "resourceType";
       TargetProperty.selectionMode := "selectionMode";
       TargetProperty.filters :=
         [{| TargetFilterProperty.path := "path";
             TargetFilterProperty.values := ["values"] |}];
       TargetProperty.parameters := [("parametersKey", "parameters")];
       TargetProperty.resourceArns := ["resourceArns"];
       TargetProperty.resourceTags := [("resourceTagsKey", "resourceTags")] |})].

(** The [actions] literal of [createExperimentTemplate]. *)
Definition actionsLiteral : list (string * ActionProperty.t) :=
  [("actionsKey",
    {| ActionProperty.actionId := "actionId";
       ActionProperty.description := "description";
       ActionProperty.parameters := [("parametersKey", "parameters")];
       ActionProperty.startAfter := ["startAfter"];
       ActionProperty.targets := [("targetsKey", "targets")] |})].

(** One element of [renderConditions]: [{ source: s.source, value: s.value?.alarmArn }]. *)
Definition renderCondition (s : StopCondition.t) : StopConditionProperty.t :=
  {| StopConditionProperty.source := StopCondition.source s;
     StopConditionProperty.value := option_map alarmArn (StopCondition.value s) |}.

Section WithCdk.
Context {cdk : AwsCdkLib}.
Variables IFisTarget IFisAction : Type.

Local Abbreviation Props := (ExperimentTemplateProps.t IFisTarget IFisAction).
Local Abbreviation This := (ExperimentTemplate.t Construct IFisTarget IFisAction).
Local Abbreviation Tree := (list (Child Construct)).

(** [renderConditions] *)
Definition renderConditions (this : This) : list StopConditionProperty.t :=
  map renderCondition (ExperimentTemplateProps.stopConditions (ExperimentTemplate.props this)).

(** [renderLogConfiguration]: the properties of the literal are evaluated in
    order; reading [logGroupArn] or [bucketArn] of a field that is
    [undefined] throws. *)
Definition renderLogConfiguration (this : This) (logConfiguration : LogConfiguration.t)
  : Result LogConfigurationProperty.t :=
  andThen
    (match ExperimentTemplate.cloudWatchLogsGroup this with
     | Some g => Ok (logGroupArn g)
     | None => Throw (TypeError "logGroupArn")
     end)
    (fun logGroupArn =>
  andThen
    (match ExperimentTemplate.s3LoggingBucket this with
     | Some b => Ok (bucketArn b)
     | None => Throw (TypeError "bucketArn")
     end)
    (fun bucketArn =>
  Ok {| LogConfigurationProperty.logSchemaVersion :=
          LogConfiguration.logSchemaVersion logConfiguration;
        LogConfigurationProperty.cloudWatchLogsConfiguration :=
          {| CloudWatchLogsConfigurationProperty.logGroupArn := logGroupArn |};
        LogConfigurationProperty.s3Configuration :=
          {| S3ConfigurationProperty.bucketName := bucketArn;
             S3ConfigurationProperty.prefix :=
               match ExperimentTemplateProps.logConfiguration (ExperimentTemplate.props this) with
               | Some lc => LogConfiguration.s3LoggingPrefix lc
               | None => None
               end |} |})).

(** The object literal passed to [new aws_fis.CfnExperimentTemplate]. *)
Definition cfnExperimentTemplateProps (this : This) : Result CfnExperimentTemplateProps.t :=
  let props := ExperimentTemplate.props this in
  andThen
    (match ExperimentTemplateProps.logConfiguration props with
     | Some lc => andThen (renderLogConfiguration this lc) (fun r => Ok (Some r))
     | None => Ok None
     end)
    (fun logConfiguration =>
  Ok {| CfnExperimentTemplateProps.description := ExperimentTemplateProps.description props;
        CfnExperimentTemplateProps.roleArn := roleArn (ExperimentTemplate.fisRole this);
        CfnExperimentTemplateProps.stopConditions := renderConditions this;
        CfnExperimentTemplateProps.targets := targetsLiteral;
        CfnExperimentTemplateProps.actions := actionsLiteral;
        CfnExperimentTemplateProps.experimentOptions :=
          {| ExperimentOptionsProperty.accountTargeting :=
               AccountTargeting_value (ExperimentTemplateProps.accountTargeting props);
             ExperimentOptionsProperty.emptyTargetResolutionMode :=
               EmptyTargetResolutionMode_value
                 (ExperimentTemplateProps.emptyTargetResolutionMode props) |};
        CfnExperimentTemplateProps.logConfiguration := logConfiguration |}).

(** [createExperimentTemplate] *)
Definition createExperimentTemplate (this : This)
  : Build.M Tree CfnExperimentTemplateProps.t :=
  (p <- Build.lift (cfnExperimentTemplateProps this) ;;
   Build.attach (fun tree =>
     tree ++ [CfnExperimentTemplate (ExperimentTemplate.node this) "Resource" p]) ;;
   Build.ret p)%build.

(** [new aws_iam.Role(scope, id, props)] *)
Definition Role_new (scope : Construct) (id : string) (props : RoleProps)
  : Build.M Tree IRole :=
  (Build.attach (fun tree => tree ++ [Role scope id props]) ;;
   Build.ret {| roleArn := Role_roleArn scope id |})%build.

(** [new aws_logs.LogGroup(scope, id, props)] *)
Definition LogGroup_new (scope : Construct) (id : string) (props : LogGroupProps)
  : Build.M Tree ILogGroup :=
  (Build.attach (fun tree => tree ++ [LogGroup scope id props]) ;;
   Build.ret {| logGroupArn := LogGroup_logGroupArn scope id |})%build.

(** [new aws_s3.Bucket(scope, id, props)] *)
Definition Bucket_new (scope : Construct) (id : string) (props : BucketProps)
  : Build.M Tree IBucket :=
  (Build.attach (fun tree => tree ++ [Bucket scope id props]) ;;
   Build.ret {| bucketArn := Bucket_bucketArn scope id |})%build.

(** [logConfiguration?.flag]: [undefined] is falsy. *)
Definition enabled (flag : LogConfiguration.t -> bool)
    (logConfiguration : option LogConfiguration.t) : bool :=
  match logConfiguration with
  | Some lc => flag lc
  | None => false
  end.

(** [explicit ?? new X(...)] under [if (flag)], for a field that stays
    unassigned otherwise. *)
Definition resolveChannel {A : Type} (flag : bool) (explicit : option A)
    (create : Build.M Tree A) : Build.M Tree (option A) :=
  if flag
  then match explicit with
       | Some a => Build.ret (Some a)
       | None => (a <- create ;; Build.ret (Some a))%build
       end
  else Build.ret None.

(** [new ExperimentTemplate(scope, id, props)] *)
Definition ExperimentTemplate_new (scope : Construct) (id : string) (props : Props)
  : Build.M Tree This :=
  let node := newConstruct scope id in
  let logConfiguration := ExperimentTemplateProps.logConfiguration props in
  (fisRole <-
     match ExperimentTemplateProps.role props with
     | Some role => Build.ret role
     | None =>
         Role_new node "Role"
           {| assumedBy := {| principalService := "pipes.amazonaws.com" |} |}
     end ;;
   cloudWatchLogsGroup <-
     resolveChannel
       (enabled LogConfiguration.cloudWatchLogLoggingEnabled logConfiguration)
       (match logConfiguration with
        | Some lc => LogConfiguration.cloudwatchLogGroup lc
        | None => None
        end)
       (LogGroup_new node "AppLogs" {| retention := ONE_MONTH |}) ;;
   s3LoggingBucket <-
     resolveChannel
       (enabled LogConfiguration.s3LoggingEnabled logConfiguration)
       (match logConfiguration with
        | Some lc => LogConfiguration.s3LoggingBucket lc
        | None => None
        end)
       (Bucket_new node "ArtifactsBucket" {| encryption := KMS_MANAGED |}) ;;
   let this :=
     {| ExperimentTemplate.node := node;
        ExperimentTemplate.props := props;
        ExperimentTemplate.fisRole := fisRole;
        ExperimentTemplate.cloudWatchLogsGroup := cloudWatchLogsGroup;
        ExperimentTemplate.s3LoggingBucket := s3LoggingBucket |} in
   createExperimentTemplate this ;;
   Build.ret this)%build.

End WithCdk.

End Fis.


(** ** The shape of a user name, character by character

    The property documented for [userName]: it begins with a letter, holds
    only letters, digits and hyphens, does not end with a hyphen and has no
    two consecutive hyphens. *)

Module UserNameShape.

Definition isLetter (c : ascii) : bool := RegExp.inClass MemoryDB.letters c.
Definition isAlnum (c : ascii) : bool := RegExp.inClass MemoryDB.alphanumerics c.
Definition isDigit (c : ascii) : bool := RegExp.inRange "0" "9" c.

(** What follows the first letter, read left to right; [afterHyphen] says
    that the character just read was a hyphen. *)
Fixpoint restOk (afterHyphen : bool) (s : string) : bool :=
  match s with
  | EmptyString => negb afterHyphen
  | String c s' =>
      if isAlnum c then restOk false s'
      else Ascii.eqb c "-" && negb afterHyphen && restOk true s'
  end.

Definition shapeOk (s : string) : bool :=
  match s with
  | EmptyString => false
  | String c s' => isLetter c && restOk false s'
  end.

Definition startsWithDigit (s : string) : bool :=
  match s with
  | EmptyString => false
  | String c _ => isDigit c
  end.

(** [[A-Za-z0-9]] and [-[A-Za-z0-9]+], the two pieces the pattern repeats. *)
Definition alnumR : RegExp.regex := RegExp.Class MemoryDB.alphanumerics.
Definition segmentR : RegExp.regex :=
  RegExp.Cat (RegExp.Chr "-") (RegExp.Plus alnumR).

(** The ways of being ill-formed that are named for [validateUserName]. *)
Definition illFormed (s : string) : bool :=
  Js.includes "--" s || Js.startsWith "-" s || Js.endsWithChar "-" s
  || startsWithDigit s.

End UserNameShape.

(** ** A concrete aws-cdk-lib to run the constructs on

    A construct is its path from the root, and the stack it lives in is the
    first segment of the path. *)

Module Sample.
Import Cdk.

Definition arn (stack : string) (components : ArnComponents) : string :=
  ("arn:aws:" ++ service components ++ ":us-east-1:" ++ stack ++ ":"
     ++ resource components
     ++ match resourceName components with
        | Some n => "/" ++ n
        | None => ""
        end)%string.

Definition lib : AwsCdkLib := {|
  Construct := list string;
  Stack := string;
  newConstruct := fun scope id => scope ++ [id];
  Stack_of := fun c => hd "" c;
  formatArn := arn;
  Token_isUnresolved := Js.includes "${Token[";
  Lazy_uniqueResourceName := fun _ _ _ => "${Token[TOKEN.0]}";
  CfnUser_attrArn := fun scope id => ("${" ++ String.concat "/" (scope ++ [id]) ++ ".Arn}")%string;
  Role_roleArn := fun scope id => ("${" ++ String.concat "/" (scope ++ [id]) ++ ".Arn}")%string;
  LogGroup_logGroupArn := fun scope id => ("${" ++ String.concat "/" (scope ++ [id]) ++ ".Arn}")%string;
  Bucket_bucketArn := fun scope id => ("${" ++ String.concat "/" (scope ++ [id]) ++ ".Arn}")%string
|}.

Definition app : list string := ["App"; "Stack"].

(** An IAM user, by its name alone. *)
Definition named (userName : option string) : MemoryDB.UserProps.t :=
  {| MemoryDB.UserProps.userName := userName;
     MemoryDB.UserProps.accessString := None;
     MemoryDB.UserProps.authenticationType := MemoryDB.IAM;
     MemoryDB.UserProps.passwords := None |}.

End Sample.


(** ** The outcome of [new User]: names for what it attaches and returns *)

Module MemoryDBRun.
Import Cdk aws_memorydb MemoryDB.

(** The length test of [validateUserName]. *)
Definition lengthOutOfRange (userName : string) : bool :=
  Nat.ltb (String.length userName) 1 || Nat.ltb 40 (String.length userName).

Section WithCdk.
Context {cdk : AwsCdkLib}.

(** The [CfnUser] that [new User(scope, id, props)] creates when it gets
    that far. *)
Definition createdUser (scope : Construct) (id : string) (props : UserProps.t)
  : CfnUser.t Construct :=
  let this := newConstruct scope id in
  {| CfnUser.scope := this; CfnUser.id := "Resource";
     CfnUser.props := cfnUserProps this props |}.

(** The [userArn] and [userName] the constructor stores. *)
Definition handleOf (user : CfnUser.t Construct) : IUser.t :=
  {| IUser.userArn := attrArn user;
     IUser.userName := CfnUserProps.userName (CfnUser.props user) |}.

End WithCdk.

End MemoryDBRun.


(** ** The outcome of [new ExperimentTemplate]: reading the construct tree *)

Module FisRun.
Import Cdk aws_fis Fis.

(** The properties of the [CfnExperimentTemplate]s in a tree, in order. *)
Definition templatesOf {Construct : Type} (tree : list (Child Construct))
  : list CfnExperimentTemplateProps.t :=
  flat_map
    (fun c => match c with
              | CfnExperimentTemplate _ _ p => [p]
              | _ => []
              end)
    tree.

(** No log configuration, or one with both channels enabled. *)
Definition bothChannelsEnabled (logConfiguration : option LogConfiguration.t) : bool :=
  match logConfiguration with
  | None => true
  | Some lc =>
      LogConfiguration.cloudWatchLogLoggingEnabled lc
      && LogConfiguration.s3LoggingEnabled lc
  end.

End FisRun.


(** ** aws-memorydb/user.ts: [grant] and [grantConnect] *)

Module MemoryDBGrant.
Import Cdk.

(** The argument of [aws_iam.Grant.addToPrincipal]. *)
Module GrantOnPrincipalOptions.
Record t (IGrantable : Type) : Type := {
    grantee : IGrantable;
    actions : list string;
    resourceArns : list string
  }.
End GrantOnPrincipalOptions.

Section WithCdk.
Context {cdk : AwsCdkLib}.
(** [aws_iam.IGrantable], [aws_iam.Grant] and [aws_iam.Grant.addToPrincipal]
    belong to aws-cdk-lib. *)
Variables IGrantable Grant : Type.
Variable Grant_addToPrincipal : GrantOnPrincipalOptions.t IGrantable -> Grant.

(** The object literal of [grant]; [this] is the user construct. *)
Definition grantOptions (this : Construct) (grantee : IGrantable)
    (actions : list string) : GrantOnPrincipalOptions.t IGrantable :=
  {| GrantOnPrincipalOptions.grantee := grantee;
     GrantOnPrincipalOptions.actions := actions;
     GrantOnPrincipalOptions.resourceArns :=
       [formatArn (Stack_of this)
          {| service := "memorydb";
             resource := "user";
             resourceName := None;
             arnFormat := Some COLON_RESOURCE_NAME |}] |}.

(** [grant(grantee, ...actions)] *)
Definition grant (this : Construct) (grantee : IGrantable)
    (actions : list string) : Grant :=
  Grant_addToPrincipal (grantOptions this grantee actions).

(** [grantConnect(grantee)] *)
Definition grantConnect (this : Construct) (grantee : IGrantable) : Grant :=
  grant this grantee ["memorydb:Connect"].

End WithCdk.

End MemoryDBGrant.


(** ** The documented rules for a user name, one by one *)

Module UserNameRules.
Import UserNameShape.

(** "Valid characters: A-Z, a-z, 0-9, and -(hyphen)" *)
Definition nameChar (c : ascii) : bool := isAlnum c || Ascii.eqb c "-".

Fixpoint allChars (p : ascii -> bool) (s : string) : bool :=
  match s with
  | EmptyString => true
  | String c s' => p c && allChars p s'
  end.

(** "must begin with a letter" *)
Definition beginsWithLetter (s : string) : bool :=
  match s with
  | EmptyString => false
  | String c _ => isLetter c
  end.

(** begins with a letter, holds only valid characters, has no two
    consecutive hyphens and does not end with a hyphen *)
Definition documented (s : string) : bool :=
  beginsWithLetter s && allChars nameChar s
  && negb (Js.includes "--" s) && negb (Js.endsWithChar "-" s).

(** What may follow a hyphen: a character that is not a hyphen. *)
Definition nonHyphenNext (s : string) : bool :=
  match s with
  | EmptyString => false
  | String c _ => negb (Ascii.eqb c "-")
  end.

Definition lengthInRange (s : string) : bool :=
  Nat.leb 1 (String.length s) && Nat.leb (String.length s) 40.

End UserNameRules.


(** ** When [new User] goes through *)

Module UserAcceptance.
Import Cdk MemoryDB.

(** [PASSWORD] with a list, or [IAM] without one. *)
Definition authenticationConsistent (props : UserProps.t) : bool :=
  match UserProps.authenticationType props, UserProps.passwords props with
  | PASSWORD, Some _ => true
  | IAM, None => true
  | _, _ => false
  end.

Section WithCdk.
Context {cdk : AwsCdkLib}.

(** No name, a token, or a name of 1 to 40 characters that follows the
    documented rules. *)
Definition nameAccepted (props : UserProps.t) : bool :=
  match UserProps.userName props with
  | None => true
  | Some userName =>
      Token_isUnresolved userName
      || UserNameRules.lengthInRange userName && UserNameRules.documented userName
  end.

End WithCdk.

End UserAcceptance.


(** ** The children of an [ExperimentTemplate], one kind at a time *)

Module FisTree.
Import Cdk aws_fis Fis.

Definition isLogGroup {Construct : Type} (c : Child Construct) : bool :=
  match c with LogGroup _ _ _ => true | _ => false end.

Definition isBucket {Construct : Type} (c : Child Construct) : bool :=
  match c with Bucket _ _ _ => true | _ => false end.



(** A channel that is enabled and was given no resource of its own. *)
Definition needsDefault {A : Type} (flag : LogConfiguration.t -> bool)
    (explicit : LogConfiguration.t -> option A)
    (logConfiguration : option LogConfiguration.t) : bool :=
  match logConfiguration with
  | Some lc => flag lc && match explicit lc with Some _ => false | None => true end
  | None => false
  end.


End FisTree.


(** ** [new User] in the construct tree

    [User_new] above follows the constructor from the return of [super] on,
    and records the [CfnUser]s it creates.  Here the call of [super] is part
    of the run: the base constructor makes the new construct a child of
    [scope] before the validations are reached.  (What the base constructor
    itself may throw belongs to aws-cdk-lib and is not part of the run.) *)

Module UserConstruct.
Import Cdk aws_memorydb MemoryDB.

(** What [new User(scope, id, props)] adds to the construct tree. *)
Inductive Node (Construct : Type) : Type :=
| UserNode (scope : Construct) (id : string) (physicalName : string)
| CfnUserNode (user : CfnUser.t Construct).

Arguments UserNode {Construct}.
Arguments CfnUserNode {Construct}.

(** The [CfnUser]s of a tree, in order. *)
Definition cfnUsersOf {Construct : Type} (tree : list (Node Construct))
  : list (CfnUser.t Construct) :=
  flat_map
    (fun n => match n with
              | CfnUserNode user => [user]
              | UserNode _ _ _ => []
              end)
    tree.

Section WithCdk.
Context {cdk : AwsCdkLib}.

(** [super(scope, id, { physicalName })] *)
Definition super (scope : Construct) (id : string) (physicalName : string)
  : Build.M (list (Node Construct)) Construct :=
  (Build.attach (fun tree => tree ++ [UserNode scope id physicalName]) ;;
   Build.ret (newConstruct scope id))%build.

(** [createResource], in the tree *)
Definition createResource (scope : Construct) (id : string)
    (props : CfnUserProps.t)
  : Build.M (list (Node Construct)) (CfnUser.t Construct) :=
  let user := {| CfnUser.scope := scope; CfnUser.id := id; CfnUser.props := props |} in
  (Build.attach (fun tree => tree ++ [CfnUserNode user]) ;;
   Build.ret user)%build.

(** [new User(scope, id, props)], from its first statement *)
Definition User_constructor (scope : Construct) (id : string) (props : UserProps.t)
  : Build.M (list (Node Construct)) IUser.t :=
  (this <- super scope id (physicalName (newConstruct scope id) props) ;;
   Build.lift (validateUserName props) ;;
   Build.lift (validateAuthenticationSettings props) ;;
   user <- createResource this "Resource" (cfnUserProps this props) ;;
   Build.ret {| IUser.userArn := attrArn user;
                IUser.userName := CfnUserProps.userName (CfnUser.props user) |})%build.

(** Construction as one all-or-nothing step: both validations pass and one
    [CfnUser] is created, or a validation fails and the tree is as it was
    before the call. *)
Definition allOrNothing (scope : Construct) (id : string) (props : UserProps.t)
    (tree : list (Node Construct)) : Prop :=
  let after := fst (User_constructor scope id props tree) in
  (validateUserName props = Ok tt /\
   validateAuthenticationSettings props = Ok tt /\
   exists user, cfnUsersOf after = cfnUsersOf tree ++ [user]) \/
  (isOk (validateUserName props) && isOk (validateAuthenticationSettings props)
     = false /\
   after = tree).

End WithCdk.

End UserConstruct.


(** * Properties *)

(** ** The matcher decides the language of a pattern *)

Module RegExpFacts.
Import RegExp.

Lemma append_empty (s1 s2 : string) :
  (s1 ++ s2)%string = "" -> s1 = "" /\ s2 = "".
Proof.
  destruct s1; simpl; intros H; [auto | discriminate].
Qed.

Lemma append_cons (s1 s2 : string) (c : ascii) (s : string) :
  (s1 ++ s2)%string = String c s ->
  (s1 = "" /\ s2 = String c s) \/
  (exists s1', s1 = String c s1' /\ s = (s1' ++ s2)%string).
Proof.
  destruct s1 as [|a s1']; simpl; intros H.
  - left; auto.
  - right. injection H as -> <-. exists s1'; auto.
Qed.

Lemma nullable_Matches (r : regex) : nullable r = true <-> Matches r "".
Proof.
  split.
  - induction r; simpl; intros H; try discriminate.
    + constructor.
    + apply andb_true_iff in H as [H1 H2].
      change "" with ("" ++ "")%string. constructor; auto.
    + apply orb_true_iff in H as [H1 | H2].
      * apply MAltL; auto.
      * apply MAltR; auto.
    + constructor.
  - intros H. remember "" as s eqn:Es.
    induction H; simpl; try discriminate; auto.
    + apply append_empty in Es as [-> ->].
      rewrite IHMatches1, IHMatches2; auto.
    + rewrite IHMatches; auto.
    + rewrite IHMatches; auto using orb_true_r.
Qed.

Lemma deriv_sound (r : regex) :
  forall c s, Matches (deriv c r) s -> Matches r (String c s).
Proof.
  induction r; simpl; intros c0 s H.
  - inversion H.
  - inversion H.
  - destruct (Ascii.eqb_spec c0 c) as [->|]; inversion H; subst. constructor.
  - destruct (inClass ranges c0) eqn:E; inversion H; subst. constructor; auto.
  - destruct (nullable r1) eqn:N.
    + inversion H as [| | | | ? ? ? H1 | ? ? ? H2 | |]; subst.
      * inversion H1; subst.
        change (String c0 (s1 ++ s2)) with (String c0 s1 ++ s2)%string.
        constructor; auto.
      * change (String c0 s) with ("" ++ String c0 s)%string.
        constructor; auto. apply nullable_Matches; auto.
    + inversion H; subst.
      change (String c0 (s1 ++ s2)) with (String c0 s1 ++ s2)%string.
      constructor; auto.
  - inversion H; subst.
    + apply MAltL; auto.
    + apply MAltR; auto.
  - inversion H; subst.
    change (String c0 (s1 ++ s2)) with (String c0 s1 ++ s2)%string.
    constructor; auto.
Qed.

Lemma deriv_complete (r : regex) :
  forall c s, Matches r (String c s) -> Matches (deriv c r) s.
Proof.
  induction r; simpl; intros c0 s H.
  - inversion H.
  - inversion H.
  - inversion H; subst. rewrite Ascii.eqb_refl. constructor.
  - inversion H; subst.
    match goal with E : inClass _ _ = true |- _ => rewrite E end. constructor.
  - inversion H; subst.
    match goal with
    | E : (_ ++ _)%string = String _ _ |- _ =>
        apply append_cons in E as [[-> ->] | (s1' & -> & ->)]
    end.
    + match goal with
      | N : Matches r1 "" |- _ => apply nullable_Matches in N; rewrite N
      end.
      apply MAltR; auto.
    + destruct (nullable r1).
      * apply MAltL. constructor; auto.
      * constructor; auto.
  - inversion H; subst.
    + apply MAltL; auto.
    + apply MAltR; auto.
  - remember (Star r) as r' eqn:Er. remember (String c0 s) as w eqn:Ew.
    revert s Ew.
    induction H; try discriminate.
    injection Er as ->. intros s Ew.
    apply append_cons in Ew as [[-> ->] | (s1' & -> & ->)].
    + apply IHMatches2; auto.
    + constructor; auto.
Qed.

Lemma test_Matches (s : string) :
  forall r, test r s = true <-> Matches r s.
Proof.
  induction s as [|c s IH]; intros r; simpl.
  - apply nullable_Matches.
  - rewrite IH. split; [apply deriv_sound | apply deriv_complete].
Qed.

End RegExpFacts.

(** ** The user-name pattern accepts exactly the well-shaped names *)

Module UserNameFacts.
Import RegExp RegExpFacts UserNameShape.

#[local] Arguments Ascii.eqb : simpl never.
#[local] Arguments Nat.leb : simpl never.
#[local] Arguments isAlnum : simpl never.
#[local] Arguments isLetter : simpl never.
#[local] Arguments isDigit : simpl never.

Lemma hyphen_not_alnum : isAlnum "-" = false.
Proof. reflexivity. Qed.

Lemma Matches_alnum (w : string) :
  Matches alnumR w -> exists c, w = String c "" /\ isAlnum c = true.
Proof.
  intros H. inversion H; subst. eauto.
Qed.

Lemma restOk_star_alnum (w : string) :
  Matches (Star alnumR) w ->
  forall t, restOk false t = true -> restOk false (w ++ t) = true.
Proof.
  intros H. remember (Star alnumR) as r eqn:Er.
  induction H; try discriminate; intros t Ht; simpl; auto.
  injection Er as ->.
  apply Matches_alnum in H as (c & -> & Hc).
  simpl. rewrite Hc. apply IHMatches2; auto.
Qed.

Lemma restOk_plus_alnum (w : string) :
  Matches (Plus alnumR) w ->
  forall b t, restOk false t = true -> restOk b (w ++ t) = true.
Proof.
  intros H b t Ht. inversion H; subst.
  match goal with M : Matches alnumR _ |- _ =>
    apply Matches_alnum in M as (c & -> & Hc) end.
  simpl. rewrite Hc. apply restOk_star_alnum; auto.
Qed.

Lemma restOk_star_segment (t : string) :
  Matches (Star segmentR) t -> restOk false t = true.
Proof.
  intros H. remember (Star segmentR) as r eqn:Er.
  induction H; try discriminate; auto.
  injection Er as ->.
  inversion H; subst.
  match goal with M : Matches (Chr _) _ |- _ => inversion M; subst end.
  simpl. apply restOk_plus_alnum; auto.
Qed.

Lemma pattern_shape (s : string) :
  Matches MemoryDB.userNamePattern s -> shapeOk s = true.
Proof.
  intros H. inversion H; subst.
  match goal with M : Matches (Class _) _ |- _ => inversion M; subst end.
  match goal with M : Matches (Cat _ _) _ |- _ => inversion M; subst end.
  simpl. apply andb_true_iff; split; auto.
  apply restOk_star_alnum; auto.
  apply restOk_star_segment; auto.
Qed.

Lemma restOk_Matches (s : string) :
  (restOk false s = true -> Matches (Cat (Star alnumR) (Star segmentR)) s) /\
  (restOk true s = true -> Matches (Cat (Plus alnumR) (Star segmentR)) s).
Proof.
  induction s as [|c s [IH1 IH2]]; simpl.
  - split; [intros _ | discriminate].
    change "" with ("" ++ "")%string. constructor; constructor.
  - destruct (isAlnum c) eqn:Hc.
    + assert (Hone : Matches alnumR (String c "")) by (constructor; auto).
      split; intros H; apply IH1 in H; inversion H; subst.
      * change (String c (s1 ++ s2)) with ((String c "" ++ s1) ++ s2)%string.
        constructor; auto. constructor; auto.
      * change (String c (s1 ++ s2)) with ((String c "" ++ s1) ++ s2)%string.
        constructor; auto. constructor; auto.
    + split; intros H.
      * apply andb_true_iff in H as [H Hs]. apply andb_true_iff in H as [H _].
        apply Ascii.eqb_eq in H as ->.
        apply IH2 in Hs. inversion Hs; subst.
        change (String "-" (s1 ++ s2))
          with ("" ++ ((String "-" "" ++ s1) ++ s2))%string.
        constructor; [constructor |].
        constructor; auto. constructor; auto. constructor.
      * rewrite andb_false_r in H. discriminate.
Qed.

Lemma shape_pattern (s : string) :
  shapeOk s = true -> Matches MemoryDB.userNamePattern s.
Proof.
  destruct s as [|c s]; simpl; [discriminate |].
  intros H. apply andb_true_iff in H as [Hc Hs].
  change (String c s) with (String c "" ++ s)%string.
  constructor; [constructor; auto |].
  apply restOk_Matches; auto.
Qed.

Lemma test_shapeOk (s : string) :
  test MemoryDB.userNamePattern s = shapeOk s.
Proof.
  destruct (shapeOk s) eqn:E.
  - apply test_Matches, shape_pattern; auto.
  - destruct (test MemoryDB.userNamePattern s) eqn:T; auto.
    apply test_Matches, pattern_shape in T. congruence.
Qed.

Lemma digit_not_letter (c : ascii) : isDigit c = true -> isLetter c = false.
Proof.
  unfold isDigit, inRange. intros H.
  apply andb_true_iff in H as [H1 H2]. apply Nat.leb_le in H1, H2.
  change (nat_of_ascii "0") with 48 in H1.
  change (nat_of_ascii "9") with 57 in H2.
  unfold isLetter, inClass, MemoryDB.letters. cbn [existsb fst snd].
  unfold inRange.
  change (nat_of_ascii "A") with 65. change (nat_of_ascii "Z") with 90.
  change (nat_of_ascii "a") with 97. change (nat_of_ascii "z") with 122.
  rewrite orb_false_r. apply orb_false_iff; split; apply andb_false_iff.
  - left. apply Nat.leb_gt. lia.
  - left. apply Nat.leb_gt. lia.
Qed.

Lemma double_hyphen_rest (s : string) :
  Js.includes "--" s = true -> forall b, restOk b s = false.
Proof.
  induction s as [|c s IH]; simpl; [discriminate |].
  intros H b. apply orb_true_iff in H as [H | H].
  - apply andb_true_iff in H as [Hc H]. apply Ascii.eqb_eq in Hc as <-.
    destruct s as [|d s]; [discriminate |].
    apply andb_true_iff in H as [Hd _]. apply Ascii.eqb_eq in Hd as <-.
    simpl. destruct b; reflexivity.
  - destruct (isAlnum c); [apply IH; auto |].
    rewrite (IH H true). apply andb_false_r.
Qed.

Lemma trailing_hyphen_rest (s : string) :
  Js.endsWithChar "-" s = true -> forall b, restOk b s = false.
Proof.
  induction s as [|c s IH]; simpl; [discriminate |].
  intros H b. destruct s as [|d s].
  - apply Ascii.eqb_eq in H as ->. simpl. apply andb_false_r.
  - destruct (isAlnum c); [apply IH; auto |].
    rewrite (IH H true). apply andb_false_r.
Qed.

Lemma illFormed_shape (s : string) :
  illFormed s = true -> shapeOk s = false.
Proof.
  unfold illFormed. intros H.
  destruct s as [|c s]; [reflexivity |].
  apply orb_true_iff in H as [H | Hd].
  apply orb_true_iff in H as [H | He].
  apply orb_true_iff in H as [Hi | Hs].
  - cbn [shapeOk].
    cbn [Js.includes] in Hi. apply orb_true_iff in Hi as [Hi | Hi].
    + cbn [Js.startsWith] in Hi. apply andb_true_iff in Hi as [Hc _].
      apply Ascii.eqb_eq in Hc as <-. reflexivity.
    + rewrite (double_hyphen_rest _ Hi false). apply andb_false_r.
  - cbn [Js.startsWith] in Hs. apply andb_true_iff in Hs as [Hc _].
    apply Ascii.eqb_eq in Hc as <-. reflexivity.
  - cbn [shapeOk]. destruct s as [|d s].
    + cbn [Js.endsWithChar] in He. apply Ascii.eqb_eq in He as ->. reflexivity.
    + rewrite (trailing_hyphen_rest (String d s)); [apply andb_false_r |].
      exact He.
  - cbn [startsWithDigit] in Hd. cbn [shapeOk].
    rewrite (digit_not_letter _ Hd). reflexivity.
Qed.

End UserNameFacts.

(** ** aws-memorydb/user.ts: validation, rendering, construction *)

Module MemoryDBFacts.
Import Cdk aws_memorydb MemoryDB MemoryDBRun UserNameShape.

(** *** Authentication settings, case by case *)

Lemma validateAuthenticationSettings_cases (props : UserProps.t) :
  validateAuthenticationSettings props =
  match UserProps.authenticationType props, UserProps.passwords props with
  | PASSWORD, None => Throw (Error passwordsRequiredMessage)
  | PASSWORD, Some _ => Ok tt
  | IAM, Some _ => Throw (Error passwordsForbiddenMessage)
  | IAM, None => Ok tt
  end.
Proof.
  unfold validateAuthenticationSettings.
  destruct (UserProps.authenticationType props), (UserProps.passwords props);
    reflexivity.
Qed.

Lemma validateAuthenticationSettings_password_absent userName accessString :
  validateAuthenticationSettings
    {| UserProps.userName := userName; UserProps.accessString := accessString;
       UserProps.authenticationType := PASSWORD; UserProps.passwords := None |}
  = Throw (Error passwordsRequiredMessage).
Proof. reflexivity. Qed.

Lemma validateAuthenticationSettings_password_given userName accessString c cs :
  validateAuthenticationSettings
    {| UserProps.userName := userName; UserProps.accessString := accessString;
       UserProps.authenticationType := PASSWORD; UserProps.passwords := Some (c :: cs) |}
  = Ok tt.
Proof. reflexivity. Qed.

Lemma validateAuthenticationSettings_iam_given userName accessString cs :
  validateAuthenticationSettings
    {| UserProps.userName := userName; UserProps.accessString := accessString;
       UserProps.authenticationType := IAM; UserProps.passwords := Some cs |}
  = Throw (Error passwordsForbiddenMessage).
Proof. reflexivity. Qed.

Section WithCdk.
Context {cdk : AwsCdkLib}.

(** *** What [validateUserName] computes on a resolved name *)

Lemma lengthOutOfRange_iff (userName : string) :
  lengthOutOfRange userName = true <->
  String.length userName = 0 \/ 40 < String.length userName.
Proof.
  unfold lengthOutOfRange. rewrite orb_true_iff, !Nat.ltb_lt. lia.
Qed.

Lemma validateUserName_resolved (props : UserProps.t) (userName : string) :
  UserProps.userName props = Some userName ->
  Token_isUnresolved userName = false ->
  validateUserName props =
  if lengthOutOfRange userName then Throw (Error (userNameLengthMessage userName))
  else if shapeOk userName then Ok tt
       else Throw (Error (userNamePatternMessage userName)).
Proof.
  intros Hn Hu. unfold validateUserName, lengthOutOfRange. rewrite Hn, Hu.
  destruct (_ || _); [reflexivity |].
  rewrite UserNameFacts.test_shapeOk. destruct (shapeOk userName); reflexivity.
Qed.

(** *** The constructor, run *)

Lemma User_new_run (scope : Construct) (id : string) (props : UserProps.t)
    (created : list (CfnUser.t Construct)) :
  User_new scope id props created =
  match validateUserName props with
  | inl e => (created, Throw e)
  | inr _ =>
      match validateAuthenticationSettings props with
      | inl e => (created, Throw e)
      | inr _ =>
          (created ++ [createdUser scope id props],
           Ok (handleOf (createdUser scope id props)))
      end
  end.
Proof.
  unfold User_new, Build.bind, Build.lift, createResource, Build.attach, Build.ret.
  destruct (validateUserName props); [reflexivity |].
  destruct (validateAuthenticationSettings props); reflexivity.
Qed.

End WithCdk.

End MemoryDBFacts.

Module UserSpec.
Import Cdk aws_memorydb MemoryDB MemoryDBRun UserNameShape MemoryDBFacts.

(** C4. [validateUserName] does nothing when the name is absent or is an
    unresolved token.  Otherwise: a name of length 0 or above 40 is rejected
    with the length message; a name with two consecutive hyphens, with a
    leading or trailing hyphen, or with a leading digit is rejected (with the
    length message or the pattern message, both citing the name); and a name
    of 1 to 40 characters in the language of
    [^[A-Za-z][A-Za-z0-9]*(-[A-Za-z0-9]+)*$] is accepted. *)
Theorem validateUserName_spec {cdk : AwsCdkLib} (props : UserProps.t) :
  (UserProps.userName props = None -> validateUserName props = Ok tt) /\
  (forall userName,
      UserProps.userName props = Some userName ->
      Token_isUnresolved userName = true ->
      validateUserName props = Ok tt) /\
  (forall userName,
      UserProps.userName props = Some userName ->
      Token_isUnresolved userName = false ->
      String.length userName = 0 \/ 40 < String.length userName ->
      validateUserName props = Throw (Error (userNameLengthMessage userName))) /\
  (forall userName,
      UserProps.userName props = Some userName ->
      Token_isUnresolved userName = false ->
      illFormed userName = true ->
      validateUserName props = Throw (Error (userNameLengthMessage userName)) \/
      validateUserName props = Throw (Error (userNamePatternMessage userName))) /\
  (forall userName,
      UserProps.userName props = Some userName ->
      Token_isUnresolved userName = false ->
      1 <= String.length userName <= 40 ->
      RegExp.Matches userNamePattern userName ->
      validateUserName props = Ok tt).
Proof.
  split; [| split; [| split; [| split]]].
  - intros Hn. unfold validateUserName. rewrite Hn. reflexivity.
  - intros userName Hn Hu. unfold validateUserName. rewrite Hn, Hu. reflexivity.
  - intros userName Hn Hu Hlen.
    rewrite (validateUserName_resolved props Hn Hu).
    apply lengthOutOfRange_iff in Hlen. rewrite Hlen. reflexivity.
  - intros userName Hn Hu Hill.
    rewrite (validateUserName_resolved props Hn Hu).
    destruct (lengthOutOfRange userName); [left; reflexivity | right].
    rewrite (UserNameFacts.illFormed_shape _ Hill). reflexivity.
  - intros userName Hn Hu Hlen Hm.
    rewrite (validateUserName_resolved props Hn Hu).
    destruct (lengthOutOfRange userName) eqn:E.
    + apply lengthOutOfRange_iff in E. lia.
    + rewrite (UserNameFacts.pattern_shape Hm). reflexivity.
Qed.

Lemma validateUserName_spec_witness :
  validateUserName (cdk := Sample.lib) (Sample.named None) = Ok tt /\
  validateUserName (cdk := Sample.lib) (Sample.named (Some "${Token[TOKEN.7]}")) = Ok tt /\
  validateUserName (cdk := Sample.lib) (Sample.named (Some ""))
    = Throw (Error (userNameLengthMessage "")) /\
  (validateUserName (cdk := Sample.lib) (Sample.named (Some "a--b"))
     = Throw (Error (userNameLengthMessage "a--b")) \/
   validateUserName (cdk := Sample.lib) (Sample.named (Some "a--b"))
     = Throw (Error (userNamePatternMessage "a--b"))) /\
  validateUserName (cdk := Sample.lib) (Sample.named (Some "alice-1")) = Ok tt.
Proof.
  split; [| split; [| split; [| split]]].
  - apply (proj1 (validateUserName_spec (cdk := Sample.lib) (Sample.named None))).
    reflexivity.
  - apply (proj1 (proj2 (validateUserName_spec (cdk := Sample.lib)
                           (Sample.named (Some "${Token[TOKEN.7]}"))))
             "${Token[TOKEN.7]}"); reflexivity.
  - apply (proj1 (proj2 (proj2 (validateUserName_spec (cdk := Sample.lib)
                                  (Sample.named (Some "")))))
             ""); [reflexivity | reflexivity | left; reflexivity].
  - apply (proj1 (proj2 (proj2 (proj2 (validateUserName_spec (cdk := Sample.lib)
                                         (Sample.named (Some "a--b"))))))
             "a--b"); reflexivity.
  - apply (proj2 (proj2 (proj2 (proj2 (validateUserName_spec (cdk := Sample.lib)
                                         (Sample.named (Some "alice-1"))))))
             "alice-1"); [reflexivity | reflexivity | simpl; lia |].
    apply RegExpFacts.test_Matches. reflexivity.
Defined.

(** C1. A [PASSWORD] user whose [passwords] is the empty list passes
    [validateAuthenticationSettings] (an empty array is truthy), and the
    constructor goes on to create the [CfnUser], with [Passwords: []]. *)
Theorem password_with_empty_list_is_accepted {cdk : AwsCdkLib}
    (scope : Construct) (id : string) (accessString : option string)
    (created : list (CfnUser.t Construct)) :
  let props :=
    {| UserProps.userName := None; UserProps.accessString := accessString;
       UserProps.authenticationType := PASSWORD; UserProps.passwords := Some [] |} in
  validateAuthenticationSettings props = Ok tt /\
  User_new scope id props created =
    (created ++ [createdUser scope id props],
     Ok (handleOf (createdUser scope id props))) /\
  CfnUserProps.authenticationMode (CfnUser.props (createdUser scope id props)) =
    {| AuthenticationMode.Type_ := "password";
       AuthenticationMode.Passwords := Some [] |}.
Proof.
  intros props. split; [reflexivity |]. split; [| reflexivity].
  rewrite User_new_run. reflexivity.
Qed.

(** From the return of [super] on, [new User] either passes both
    validations and creates exactly one [CfnUser], or throws the error of the
    first validation that fails and has created no [CfnUser]. *)
Theorem User_new_atomic {cdk : AwsCdkLib}
    (scope : Construct) (id : string) (props : UserProps.t)
    (created : list (CfnUser.t Construct)) :
  (validateUserName props = Ok tt /\
   validateAuthenticationSettings props = Ok tt /\
   exists user handle,
     User_new scope id props created = (created ++ [user], Ok handle)) \/
  (exists e,
     (validateUserName props = Throw e \/
      validateUserName props = Ok tt /\
      validateAuthenticationSettings props = Throw e) /\
     User_new scope id props created = (created, Throw e)).
Proof.
  rewrite User_new_run.
  destruct (validateUserName props) as [e | []].
  - right. exists e. split; [left |]; reflexivity.
  - destruct (validateAuthenticationSettings props) as [e | []].
    + right. exists e. split; [right; split |]; reflexivity.
    + left. repeat split. eauto.
Qed.

(** C7. The rendered authentication mode has [Type] the string of the
    authentication type, and has [Passwords], the unwrapped secrets in order,
    exactly when [passwords] was supplied; [PASSWORD] with the one secret
    "secretA" renders [{Type: "password", Passwords: ["secretA"]}]. *)
Theorem renderAuthenticationMode_spec (props : UserProps.t) :
  AuthenticationMode.Type_ (renderAuthenticationMode props)
    = AuthenticationType_value (UserProps.authenticationType props) /\
  AuthenticationMode.Passwords (renderAuthenticationMode props)
    = option_map (map unsafeUnwrap) (UserProps.passwords props) /\
  (AuthenticationMode.Passwords (renderAuthenticationMode props) = None
     <-> UserProps.passwords props = None) /\
  (forall userName accessString,
      renderAuthenticationMode
        {| UserProps.userName := userName; UserProps.accessString := accessString;
           UserProps.authenticationType := PASSWORD;
           UserProps.passwords := Some [{| unsafeUnwrap := "secretA" |}] |}
      = {| AuthenticationMode.Type_ := "password";
           AuthenticationMode.Passwords := Some ["secretA"] |}).
Proof.
  unfold renderAuthenticationMode.
  destruct (UserProps.passwords props) as [ps |]; simpl;
    repeat split; intros; try reflexivity; discriminate.
Qed.

(** C8. [new User] with name "alice-1", access string "on ~* +@all" and IAM
    authentication creates the one [CfnUser] with exactly
    [{userName: "alice-1", accessString: "on ~* +@all",
      authenticationMode: {Type: "iam"}}]; and whenever [accessString] is
    left out, the properties handed to [CfnUser] have [accessString]
    "off -@all", the [CfnUser] with these properties being the one thing
    created when both validations pass. *)
Theorem User_new_renders {cdk : AwsCdkLib}
    (scope : Construct) (id : string) (created : list (CfnUser.t Construct)) :
  (let alice :=
     {| UserProps.userName := Some "alice-1";
        UserProps.accessString := Some "on ~* +@all";
        UserProps.authenticationType := IAM;
        UserProps.passwords := None |} in
   fst (User_new scope id alice created) =
     created ++
       [{| CfnUser.scope := newConstruct scope id;
           CfnUser.id := "Resource";
           CfnUser.props :=
             {| CfnUserProps.userName := "alice-1";
                CfnUserProps.accessString := "on ~* +@all";
                CfnUserProps.authenticationMode :=
                  {| AuthenticationMode.Type_ := "iam";
                     AuthenticationMode.Passwords := None |} |} |}] /\
   isOk (snd (User_new scope id alice created)) = true) /\
  (forall userName authenticationType passwords,
      let props :=
        {| UserProps.userName := userName; UserProps.accessString := None;
           UserProps.authenticationType := authenticationType;
           UserProps.passwords := passwords |} in
      CfnUserProps.accessString (cfnUserProps (newConstruct scope id) props)
        = "off -@all" /\
      fst (User_new scope id props created) =
        created ++
          (if isOk (validateUserName props)
              && isOk (validateAuthenticationSettings props)
           then [createdUser scope id props]
           else [])).
Proof.
  split.
  - intros alice. rewrite User_new_run.
    assert (Hv : validateUserName alice = Ok tt).
    { unfold validateUserName, alice; cbn [UserProps.userName].
      destruct (Token_isUnresolved "alice-1"); reflexivity. }
    rewrite Hv. split; reflexivity.
  - intros userName authenticationType passwords props.
    split; [reflexivity |].
    rewrite User_new_run.
    destruct (validateUserName props);
      [cbn [isOk andb]; rewrite app_nil_r; reflexivity |].
    destruct (validateAuthenticationSettings props);
      [cbn [isOk andb]; rewrite app_nil_r; reflexivity |].
    reflexivity.
Qed.

(** C10. Two users imported with [fromUserAttributes] into the same stack
    have the same [userArn], whatever their names: it is the stack's ARN for
    service "memorydb" and resource "user", with no resource name.  The
    handle's [userName] is the one supplied. *)
Theorem fromUserAttributes_userArn {cdk : AwsCdkLib}
    (scope1 scope2 : Construct) (id1 id2 : string)
    (attrs1 attrs2 : UserAttributes.t) :
  Stack_of (newConstruct scope1 id1) = Stack_of (newConstruct scope2 id2) ->
  IUser.userArn (fromUserAttributes scope1 id1 attrs1)
    = IUser.userArn (fromUserAttributes scope2 id2 attrs2) /\
  IUser.userArn (fromUserAttributes scope1 id1 attrs1)
    = formatArn (Stack_of (newConstruct scope1 id1))
        {| service := "memorydb"; resource := "user";
           resourceName := None; arnFormat := None |} /\
  IUser.userName (fromUserAttributes scope1 id1 attrs1)
    = UserAttributes.userName attrs1.
Proof.
  intros Hstack. unfold fromUserAttributes; cbn [IUser.userArn IUser.userName].
  rewrite Hstack. repeat split.
Qed.

Lemma fromUserAttributes_userArn_witness :
  IUser.userArn
    (fromUserAttributes (cdk := Sample.lib) Sample.app "Alice"
       {| UserAttributes.userName := "alice" |})
    = IUser.userArn
        (fromUserAttributes (cdk := Sample.lib) Sample.app "Bob"
           {| UserAttributes.userName := "bob" |}) /\
  IUser.userArn
    (fromUserAttributes (cdk := Sample.lib) Sample.app "Alice"
       {| UserAttributes.userName := "alice" |})
    = "arn:aws:memorydb:us-east-1:App:user" /\
  IUser.userName
    (fromUserAttributes (cdk := Sample.lib) Sample.app "Alice"
       {| UserAttributes.userName := "alice" |})
    = "alice".
Proof.
  apply (fromUserAttributes_userArn (cdk := Sample.lib)
           Sample.app Sample.app "Alice" "Bob"
           {| UserAttributes.userName := "alice" |}
           {| UserAttributes.userName := "bob" |}).
  reflexivity.
Defined.

End UserSpec.

(** ** aws-fis/experiment-template.ts: rendering and construction *)

Module ExperimentTemplateSpec.
Import Cdk aws_fis Fis FisRun.

Section WithCdk.
Context {cdk : AwsCdkLib}.
Variables IFisTarget IFisAction : Type.

Local Abbreviation Props := (ExperimentTemplateProps.t IFisTarget IFisAction).
Local Abbreviation This := (ExperimentTemplate.t Construct IFisTarget IFisAction).

Ltac by_cases_on_logging logConfiguration :=
  destruct logConfiguration as [[version [|] [group|] [|] [bucket|] prefix]|];
  try reflexivity.

(** With both channels enabled the log configuration renders, with both
    sub-blocks. *)
Lemma renderLogConfiguration_both_assigned (this : This)
    (logConfiguration : LogConfiguration.t) (g : ILogGroup) (b : IBucket) :
  ExperimentTemplate.cloudWatchLogsGroup this = Some g ->
  ExperimentTemplate.s3LoggingBucket this = Some b ->
  exists prefix,
    renderLogConfiguration this logConfiguration =
    Ok {| LogConfigurationProperty.logSchemaVersion :=
            LogConfiguration.logSchemaVersion logConfiguration;
          LogConfigurationProperty.cloudWatchLogsConfiguration :=
            {| CloudWatchLogsConfigurationProperty.logGroupArn := logGroupArn g |};
          LogConfigurationProperty.s3Configuration :=
            {| S3ConfigurationProperty.bucketName := bucketArn b;
               S3ConfigurationProperty.prefix := prefix |} |}.
Proof.
  intros Hg Hb. unfold renderLogConfiguration. rewrite Hg, Hb.
  eexists. reflexivity.
Qed.

Lemma ExperimentTemplate_new_completes (scope : Construct) (id : string)
    (props : Props) :
  isOk (snd (ExperimentTemplate_new scope id props [])) =
  bothChannelsEnabled (ExperimentTemplateProps.logConfiguration props).
Proof.
  destruct props as [description [role|] stopConditions targets actions
                       accountTargeting emptyTargetResolutionMode logConfiguration];
    by_cases_on_logging logConfiguration.
Qed.

(** C9. [renderConditions] gives a list of the same length as
    [stopConditions], whose element at each position is
    [{source, value: alarmArn of the alarm}] of the condition at that
    position; a condition without an alarm renders [value] absent. *)
Theorem renderConditions_spec (this : This) :
  let stopConditions :=
    ExperimentTemplateProps.stopConditions (ExperimentTemplate.props this) in
  length (renderConditions this) = length stopConditions /\
  (forall i,
      nth_error (renderConditions this) i =
      option_map
        (fun s =>
           {| StopConditionProperty.source := StopCondition.source s;
              StopConditionProperty.value :=
                match StopCondition.value s with
                | Some alarm => Some (alarmArn alarm)
                | None => None
                end |})
        (nth_error stopConditions i)) /\
  (forall source,
      renderCondition {| StopCondition.source := source; StopCondition.value := None |}
      = {| StopConditionProperty.source := source;
           StopConditionProperty.value := None |}).
Proof.
  intros stopConditions. unfold renderConditions. fold stopConditions.
  split; [apply length_map |]. split; [| reflexivity].
  intros i. rewrite nth_error_map.
  destruct (nth_error stopConditions i) as [s |]; [| reflexivity].
  destruct s as [source [alarm |]]; reflexivity.
Qed.


(** C6. Without an explicit role, construction creates exactly one [Role],
    assumed by the service principal "pipes.amazonaws.com", and the template
    it renders has that role's ARN as [roleArn]; with an explicit role no
    [Role] is created and the template has the given role's ARN.  (The
    template is rendered when there is no log configuration or both of its
    channels are enabled; the role is resolved in every case.) *)
Theorem resolveRole_spec (scope : Construct) (id : string) (props : Props) :
  let node := newConstruct scope id in
  let tree := fst (ExperimentTemplate_new scope id props []) in
  let rendered := bothChannelsEnabled (ExperimentTemplateProps.logConfiguration props) in
  match ExperimentTemplateProps.role props with
  | None =>
      filter isRole tree =
        [Role node "Role"
           {| assumedBy := {| principalService := "pipes.amazonaws.com" |} |}] /\
      map CfnExperimentTemplateProps.roleArn (templatesOf tree) =
        (if rendered then [Role_roleArn node "Role"] else [])
  | Some role =>
      filter isRole tree = [] /\
      map CfnExperimentTemplateProps.roleArn (templatesOf tree) =
        (if rendered then [roleArn role] else [])
  end.
Proof.
  destruct props as [description [role|] stopConditions targets actions
                       accountTargeting emptyTargetResolutionMode logConfiguration];
    cbn [ExperimentTemplateProps.role ExperimentTemplateProps.logConfiguration];
    destruct logConfiguration as [[version [|] [group|] [|] [bucket|] prefix]|];
    split; reflexivity.
Qed.

(** C2. The [targets] and [actions] of the props do not reach the template:
    two constructions that differ only in them build the same tree, and the
    template in it carries the two literals of [createExperimentTemplate],
    under the keys "tartsKey" and "actionsKey". *)
Theorem targets_and_actions_are_ignored (scope : Construct) (id : string)
    (description : string) (role : option IRole)
    (stopConditions : list StopCondition.t)
    (accountTargeting : AccountTargeting)
    (emptyTargetResolutionMode : EmptyTargetResolutionMode)
    (logConfiguration : option LogConfiguration.t)
    (targets1 targets2 : list IFisTarget)
    (actions1 actions2 : option (list IFisAction)) :
  let props targets actions : Props :=
    {| ExperimentTemplateProps.description := description;
       ExperimentTemplateProps.role := role;
       ExperimentTemplateProps.stopConditions := stopConditions;
       ExperimentTemplateProps.targets := targets;
       ExperimentTemplateProps.actions := actions;
       ExperimentTemplateProps.accountTargeting := accountTargeting;
       ExperimentTemplateProps.emptyTargetResolutionMode := emptyTargetResolutionMode;
       ExperimentTemplateProps.logConfiguration := logConfiguration |} in
  let tree1 := fst (ExperimentTemplate_new scope id (props targets1 actions1) []) in
  let tree2 := fst (ExperimentTemplate_new scope id (props targets2 actions2) []) in
  tree1 = tree2 /\
  map CfnExperimentTemplateProps.targets (templatesOf tree1) =
    (if bothChannelsEnabled logConfiguration then [targetsLiteral] else []) /\
  map CfnExperimentTemplateProps.actions (templatesOf tree1) =
    (if bothChannelsEnabled logConfiguration then [actionsLiteral] else []).
Proof.
  destruct role as [role|];
    destruct logConfiguration as [[version [|] [group|] [|] [bucket|] prefix]|];
    repeat split.
Qed.

(** C3. With a log configuration whose CloudWatch channel is disabled,
    construction throws on reading [logGroupArn] of the unassigned
    [cloudWatchLogsGroup]; with CloudWatch enabled and the S3 channel
    disabled, it throws on reading [bucketArn] of the unassigned
    [s3LoggingBucket].  No template is created in either case. *)
Theorem renderLogConfiguration_throws_on_disabled_channel
    (scope : Construct) (id : string)
    (description : string) (role : option IRole)
    (stopConditions : list StopCondition.t)
    (targets : list IFisTarget) (actions : option (list IFisAction))
    (accountTargeting : AccountTargeting)
    (emptyTargetResolutionMode : EmptyTargetResolutionMode)
    (version : Z) (group : option ILogGroup) (bucket : option IBucket)
    (prefix : option string) (s3LoggingEnabled : bool) :
  let props cloudWatch s3 : Props :=
    {| ExperimentTemplateProps.description := description;
       ExperimentTemplateProps.role := role;
       ExperimentTemplateProps.stopConditions := stopConditions;
       ExperimentTemplateProps.targets := targets;
       ExperimentTemplateProps.actions := actions;
       ExperimentTemplateProps.accountTargeting := accountTargeting;
       ExperimentTemplateProps.emptyTargetResolutionMode := emptyTargetResolutionMode;
       ExperimentTemplateProps.logConfiguration :=
         Some {| LogConfiguration.logSchemaVersion := version;
                 LogConfiguration.cloudWatchLogLoggingEnabled := cloudWatch;
                 LogConfiguration.cloudwatchLogGroup := group;
                 LogConfiguration.s3LoggingEnabled := s3;
                 LogConfiguration.s3LoggingBucket := bucket;
                 LogConfiguration.s3LoggingPrefix := prefix |} |} in
  (snd (ExperimentTemplate_new scope id (props false s3LoggingEnabled) [])
     = Throw (TypeError "logGroupArn") /\
   templatesOf (fst (ExperimentTemplate_new scope id (props false s3LoggingEnabled) []))
     = []) /\
  (snd (ExperimentTemplate_new scope id (props true false) [])
     = Throw (TypeError "bucketArn") /\
   templatesOf (fst (ExperimentTemplate_new scope id (props true false) [])) = []).
Proof.
  destruct role as [role|], group as [group|], bucket as [bucket|],
    s3LoggingEnabled; repeat split.
Qed.

End WithCdk.

End ExperimentTemplateSpec.

(** ** The pattern and the documented rules for a user name *)

Module UserNameRulesFacts.
Import UserNameShape UserNameRules.

#[local] Arguments Ascii.eqb : simpl never.
#[local] Arguments Nat.leb : simpl never.
#[local] Arguments isAlnum : simpl never.
#[local] Arguments isLetter : simpl never.

Lemma letter_alnum (c : ascii) : isLetter c = true -> isAlnum c = true.
Proof.
  unfold isLetter, isAlnum, RegExp.inClass, MemoryDB.letters, MemoryDB.alphanumerics.
  cbn [existsb fst snd]. rewrite !orb_false_r. intros H.
  apply orb_true_iff in H as [H | H]; rewrite H; auto using orb_true_r.
Qed.

Lemma alnum_not_hyphen (c : ascii) : isAlnum c = true -> c <> "-"%char.
Proof.
  intros H ->. rewrite UserNameFacts.hyphen_not_alnum in H. discriminate.
Qed.

Lemma includes_skip (c : ascii) (s : string) :
  c <> "-"%char -> Js.includes "--" (String c s) = Js.includes "--" s.
Proof.
  intros Hc. cbn [Js.includes Js.startsWith].
  replace (Ascii.eqb "-" c) with false; [reflexivity |].
  symmetry. apply Ascii.eqb_neq. congruence.
Qed.

Lemma endsWith_skip (c : ascii) (s : string) :
  c <> "-"%char -> Js.endsWithChar "-" (String c s) = Js.endsWithChar "-" s.
Proof.
  intros Hc. destruct s as [|d s]; [| reflexivity].
  cbn [Js.endsWithChar]. apply Ascii.eqb_neq. exact Hc.
Qed.

Lemma restOk_rules (s : string) :
  forall afterHyphen,
    restOk afterHyphen s =
    allChars nameChar s && negb (Js.includes "--" s)
    && negb (Js.endsWithChar "-" s)
    && (if afterHyphen then nonHyphenNext s else true).
Proof.
  induction s as [|c s IH]; intros b.
  - destruct b; reflexivity.
  - cbn [restOk allChars nonHyphenNext]. unfold nameChar at 1.
    destruct (isAlnum c) eqn:Ha.
    + pose proof (alnum_not_hyphen Ha) as Hc.
      rewrite (includes_skip s Hc), (endsWith_skip s Hc), (IH false).
      replace (Ascii.eqb c "-") with false
        by (symmetry; apply Ascii.eqb_neq; exact Hc).
      cbn [orb andb negb]. destruct b; rewrite !andb_true_r; reflexivity.
    + destruct (Ascii.eqb_spec c "-") as [-> | Hc]; [| reflexivity].
      cbn [orb andb negb]. rewrite (IH true).
      cbn [Js.includes Js.startsWith]. rewrite Ascii.eqb_refl. cbn [andb].
      destruct b; [cbn [negb andb]; rewrite !andb_false_r; reflexivity |].
      destruct s as [|d s].
      * reflexivity.
      * cbn [nonHyphenNext Js.startsWith Js.endsWithChar andb negb].
        rewrite (Ascii.eqb_sym "-" d), !andb_true_r.
        destruct (Ascii.eqb d "-"); cbn [negb andb orb];
          rewrite ?andb_true_r, ?andb_false_r; reflexivity.
Qed.

Lemma shapeOk_documented (s : string) : shapeOk s = documented s.
Proof.
  destruct s as [|c s]; [reflexivity |].
  unfold documented. cbn [shapeOk beginsWithLetter allChars].
  destruct (isLetter c) eqn:Hl; [| reflexivity].
  pose proof (letter_alnum c Hl) as Ha.
  pose proof (alnum_not_hyphen Ha) as Hc.
  unfold nameChar at 1. rewrite Ha. cbn [orb andb].
  rewrite (includes_skip s Hc), (endsWith_skip s Hc), (restOk_rules s false).
  rewrite andb_true_r. reflexivity.
Qed.

End UserNameRulesFacts.

(** ** aws-memorydb/user.ts: when construction goes through, and with what *)

Module UserAcceptanceFacts.
Import Cdk aws_memorydb MemoryDB MemoryDBRun UserNameShape UserNameRules UserAcceptance.

Lemma lengthInRange_negb (s : string) :
  lengthInRange s = negb (lengthOutOfRange s).
Proof.
  unfold lengthInRange, lengthOutOfRange.
  rewrite negb_orb, !Nat.ltb_antisym, !negb_involutive. reflexivity.
Qed.

Lemma isOk_validateAuthenticationSettings (props : UserProps.t) :
  isOk (validateAuthenticationSettings props) = authenticationConsistent props.
Proof.
  rewrite MemoryDBFacts.validateAuthenticationSettings_cases.
  unfold authenticationConsistent.
  destruct (UserProps.authenticationType props), (UserProps.passwords props);
    reflexivity.
Qed.

Section WithCdk.
Context {cdk : AwsCdkLib}.

Lemma validateUserName_rules (props : UserProps.t) (userName : string) :
  UserProps.userName props = Some userName ->
  Token_isUnresolved userName = false ->
  validateUserName props =
  if lengthInRange userName
  then if documented userName then Ok tt
       else Throw (Error (userNamePatternMessage userName))
  else Throw (Error (userNameLengthMessage userName)).
Proof.
  intros Hn Hu. rewrite (MemoryDBFacts.validateUserName_resolved props Hn Hu).
  rewrite lengthInRange_negb, UserNameRulesFacts.shapeOk_documented.
  destruct (lengthOutOfRange userName); reflexivity.
Qed.

Lemma isOk_validateUserName (props : UserProps.t) :
  isOk (validateUserName props) = nameAccepted props.
Proof.
  unfold nameAccepted.
  destruct (UserProps.userName props) as [userName |] eqn:Hn.
  - destruct (Token_isUnresolved userName) eqn:Hu.
    + unfold validateUserName. rewrite Hn, Hu. reflexivity.
    + rewrite (validateUserName_rules props Hn Hu). cbn [orb].
      destruct (lengthInRange userName), (documented userName); reflexivity.
  - unfold validateUserName. rewrite Hn. reflexivity.
Qed.

Lemma User_new_accepted (scope : Construct) (id : string) (props : UserProps.t)
    (created : list (CfnUser.t Construct)) :
  User_new scope id props created =
  if nameAccepted props && authenticationConsistent props
  then (created ++ [createdUser scope id props],
        Ok (handleOf (createdUser scope id props)))
  else (created, snd (User_new scope id props created)).
Proof.
  rewrite <- isOk_validateUserName, <- isOk_validateAuthenticationSettings.
  rewrite !MemoryDBFacts.User_new_run.
  destruct (validateUserName props); [reflexivity |].
  destruct (validateAuthenticationSettings props); reflexivity.
Qed.

End WithCdk.

End UserAcceptanceFacts.

Module UserExtra.
Import Cdk aws_memorydb MemoryDB MemoryDBRun MemoryDBGrant.
Import UserNameShape UserNameRules UserAcceptance UserAcceptanceFacts.

(** X1. The pattern of [validateUserName] accepts exactly the names that
    follow the rules documented for [userName]: the name begins with a
    letter, every character is a letter, a digit or a hyphen, there are no
    two consecutive hyphens, and the last character is not a hyphen. *)
Theorem userNamePattern_documented (s : string) :
  RegExp.test userNamePattern s = documented s.
Proof.
  rewrite UserNameFacts.test_shapeOk.
  apply UserNameRulesFacts.shapeOk_documented.
Qed.

(** X2. [new User] returns normally exactly when the name is absent, a
    token, or 1 to 40 characters long and well formed, and the
    authentication settings are [PASSWORD] with a list or [IAM] without one;
    it then has created one resource, and none otherwise. *)
Theorem User_new_succeeds_iff {cdk : AwsCdkLib}
    (scope : Construct) (id : string) (props : UserProps.t)
    (created : list (CfnUser.t Construct)) :
  isOk (snd (User_new scope id props created))
    = nameAccepted props && authenticationConsistent props /\
  length (fst (User_new scope id props created))
    = length created
      + (if nameAccepted props && authenticationConsistent props then 1 else 0).
Proof.
  rewrite (User_new_accepted scope id props created).
  destruct (nameAccepted props && authenticationConsistent props) eqn:E.
  - cbn [fst snd isOk Ok]. rewrite length_app. split; reflexivity.
  - cbn [fst snd]. split; [| lia].
    rewrite <- E, <- isOk_validateUserName, <- isOk_validateAuthenticationSettings.
    rewrite MemoryDBFacts.User_new_run.
    destruct (validateUserName props); [reflexivity |].
    destruct (validateAuthenticationSettings props); reflexivity.
Qed.

(** X3. When [new User] returns, the one resource it created is the child
    "Resource" of the new construct; its [userName] is the name given, or
    the lazy unique name asked for with separator "-" and at most 40
    characters; the user's [userName] is the resource's and its [userArn]
    is the resource's [attrArn]. *)
Theorem User_new_handle {cdk : AwsCdkLib}
    (scope : Construct) (id : string) (props : UserProps.t)
    (created created' : list (CfnUser.t Construct)) (handle : IUser.t) :
  User_new scope id props created = (created', Ok handle) ->
  exists user,
    created' = created ++ [user] /\
    CfnUser.scope user = newConstruct scope id /\
    CfnUser.id user = "Resource" /\
    CfnUserProps.userName (CfnUser.props user) =
      match UserProps.userName props with
      | Some userName => userName
      | None => Lazy_uniqueResourceName (newConstruct scope id) "-" 40
      end /\
    IUser.userName handle = CfnUserProps.userName (CfnUser.props user) /\
    IUser.userArn handle = CfnUser_attrArn (newConstruct scope id) "Resource".
Proof.
  rewrite MemoryDBFacts.User_new_run.
  destruct (validateUserName props); [discriminate |].
  destruct (validateAuthenticationSettings props); [discriminate |].
  intros H. injection H as <- <-.
  exists (createdUser scope id props). repeat split.
  unfold createdUser, cfnUserProps, physicalName; cbn.
  destruct (UserProps.userName props); reflexivity.
Qed.

Lemma User_new_handle_witness :
  exists user,
    [{| CfnUser.scope := ["App"; "Stack"; "Cache"];
        CfnUser.id := "Resource";
        CfnUser.props :=
          {| CfnUserProps.userName := "${Token[TOKEN.0]}";
             CfnUserProps.accessString := "off -@all";
             CfnUserProps.authenticationMode :=
               {| AuthenticationMode.Type_ := "iam";
                  AuthenticationMode.Passwords := None |} |} |}]
      = [] ++ [user] /\
    CfnUser.scope user = ["App"; "Stack"; "Cache"] /\
    CfnUser.id user = "Resource" /\
    CfnUserProps.userName (CfnUser.props user) = "${Token[TOKEN.0]}" /\
    "${Token[TOKEN.0]}" = CfnUserProps.userName (CfnUser.props user) /\
    "${App/Stack/Cache/Resource.Arn}" = "${App/Stack/Cache/Resource.Arn}".
Proof.
  apply (User_new_handle (cdk := Sample.lib) Sample.app "Cache"
           (Sample.named None) []
           (handle := {| IUser.userArn := "${App/Stack/Cache/Resource.Arn}";
                         IUser.userName := "${Token[TOKEN.0]}" |})).
  reflexivity.
Defined.



(** X5. No limit on the number of passwords is enforced: a [PASSWORD] user
    with a list of any length is created (given a name that is accepted), and
    every password of the list is rendered, unwrapped, in the order given. *)
Theorem passwords_not_bounded {cdk : AwsCdkLib}
    (scope : Construct) (id : string) (accessString : option string)
    (passwords : list SecretValue) (created : list (CfnUser.t Construct)) :
  let props :=
    {| UserProps.userName := None; UserProps.accessString := accessString;
       UserProps.authenticationType := PASSWORD;
       UserProps.passwords := Some passwords |} in
  User_new scope id props created =
    (created ++ [createdUser scope id props],
     Ok (handleOf (createdUser scope id props))) /\
  AuthenticationMode.Passwords
    (CfnUserProps.authenticationMode (CfnUser.props (createdUser scope id props)))
  = Some (map unsafeUnwrap passwords) /\
  length (map unsafeUnwrap passwords) = length passwords.
Proof.
  intros props. rewrite MemoryDBFacts.User_new_run.
  split; [reflexivity |]. split; [reflexivity | apply length_map].
Qed.

(** X6. The access string is never validated or rewritten: whether
    [new User] goes through does not depend on it, and an access string that
    is given, the empty one included, reaches the resource as it is. *)
Theorem accessString_not_validated {cdk : AwsCdkLib}
    (scope : Construct) (id : string) (userName : option string)
    (authenticationType : AuthenticationType)
    (passwords : option (list SecretValue))
    (accessString1 accessString2 : option string) (accessString : string) :
  let props a :=
    {| UserProps.userName := userName; UserProps.accessString := a;
       UserProps.authenticationType := authenticationType;
       UserProps.passwords := passwords |} in
  isOk (snd (User_new scope id (props accessString1) []))
    = isOk (snd (User_new scope id (props accessString2) [])) /\
  map (fun user => CfnUserProps.accessString (CfnUser.props user))
      (fst (User_new scope id (props (Some accessString)) []))
  = (if isOk (snd (User_new scope id (props accessString1) []))
     then [accessString] else []).
Proof.
  intros props.
  assert (Hok : forall a,
             isOk (snd (User_new scope id (props a) []))
             = nameAccepted (props None) && authenticationConsistent (props None)).
  { intros a. apply (User_new_succeeds_iff scope id (props a) []). }
  rewrite !Hok. split; [reflexivity |].
  rewrite (User_new_accepted scope id (props (Some accessString)) []).
  change (nameAccepted (props (Some accessString)))
    with (nameAccepted (props None)).
  change (authenticationConsistent (props (Some accessString)))
    with (authenticationConsistent (props None)).
  destruct (nameAccepted (props None) && authenticationConsistent (props None));
    reflexivity.
Qed.

(** X7. [grant] does not single out the user it is called on: the grant
    names one resource, the ARN of the user's stack for service "memorydb"
    and resource "user" in colon format with no resource name, so for two
    users of one stack [grant] issues the same grant; and [grantConnect] is
    [grant] with the single action "memorydb:Connect". *)
Theorem grant_same_for_every_user {cdk : AwsCdkLib}
    (IGrantable Grant : Type)
    (Grant_addToPrincipal : GrantOnPrincipalOptions.t IGrantable -> Grant)
    (this1 this2 : Construct) (grantee : IGrantable) (actions : list string) :
  Stack_of this1 = Stack_of this2 ->
  grant Grant_addToPrincipal this1 grantee actions
    = grant Grant_addToPrincipal this2 grantee actions /\
  grantConnect Grant_addToPrincipal this1 grantee
    = grant Grant_addToPrincipal this2 grantee ["memorydb:Connect"] /\
  GrantOnPrincipalOptions.resourceArns (grantOptions this1 grantee actions)
    = [formatArn (Stack_of this2)
         {| service := "memorydb"; resource := "user";
            resourceName := None; arnFormat := Some COLON_RESOURCE_NAME |}].
Proof.
  intros Hstack. unfold grantConnect, grant, grantOptions.
  cbn [GrantOnPrincipalOptions.resourceArns]. rewrite Hstack. repeat split.
Qed.

Lemma grant_same_for_every_user_witness :
  grant (cdk := Sample.lib) (fun options => options)
    ["App"; "Stack"; "Alice"] "reader" ["memorydb:Connect"; "memorydb:DescribeUsers"]
  = grant (cdk := Sample.lib) (fun options => options)
      ["App"; "Stack"; "Bob"] "reader" ["memorydb:Connect"; "memorydb:DescribeUsers"] /\
  grantConnect (cdk := Sample.lib) (fun options => options)
    ["App"; "Stack"; "Alice"] "reader"
  = grant (cdk := Sample.lib) (fun options => options)
      ["App"; "Stack"; "Bob"] "reader" ["memorydb:Connect"] /\
  GrantOnPrincipalOptions.resourceArns
    (grantOptions (cdk := Sample.lib) ["App"; "Stack"; "Alice"] "reader"
       ["memorydb:Connect"; "memorydb:DescribeUsers"])
  = ["arn:aws:memorydb:us-east-1:App:user"].
Proof.
  apply (grant_same_for_every_user (cdk := Sample.lib)
           (fun options : GrantOnPrincipalOptions.t string => options)
           ["App"; "Stack"; "Alice"] ["App"; "Stack"; "Bob"]
           "reader" ["memorydb:Connect"; "memorydb:DescribeUsers"]).
  reflexivity.
Defined.

End UserExtra.

(** ** aws-fis/experiment-template.ts: the logging channels and the children *)

Module ExperimentTemplateExtra.
Import Cdk aws_fis Fis FisRun FisTree.

Section WithCdk.
Context {cdk : AwsCdkLib}.
Variables IFisTarget IFisAction : Type.

Local Abbreviation Props := (ExperimentTemplateProps.t IFisTarget IFisAction).

Ltac by_cases props :=
  destruct props as [description [role|] stopConditions targets actions
                       accountTargeting emptyTargetResolutionMode
                       [[version [|] [group|] [|] [bucket|] prefix]|]].

(** X8. The CloudWatch channel: a log group is created, as child "AppLogs"
    with one month of retention, exactly when the channel is enabled and no
    log group was given; the rendered template names the ARN of the log
    group that was given, or else of the one created. *)
Theorem resolveLogGroup_spec (scope : Construct) (id : string) (props : Props) :
  let node := newConstruct scope id in
  let tree := fst (ExperimentTemplate_new scope id props []) in
  let lc := ExperimentTemplateProps.logConfiguration props in
  filter isLogGroup tree =
    (if needsDefault LogConfiguration.cloudWatchLogLoggingEnabled
          LogConfiguration.cloudwatchLogGroup lc
     then [LogGroup node "AppLogs" {| retention := ONE_MONTH |}]
     else []) /\
  map (fun p =>
         option_map
           (fun l => CloudWatchLogsConfigurationProperty.logGroupArn
                       (LogConfigurationProperty.cloudWatchLogsConfiguration l))
           (CfnExperimentTemplateProps.logConfiguration p))
      (templatesOf tree) =
    (if bothChannelsEnabled lc
     then [option_map
             (fun c => match LogConfiguration.cloudwatchLogGroup c with
                       | Some g => logGroupArn g
                       | None => LogGroup_logGroupArn node "AppLogs"
                       end)
             lc]
     else []).
Proof.
  by_cases props; split; reflexivity.
Qed.

(** X9. The S3 channel: a bucket is created, as child "ArtifactsBucket" with
    KMS-managed encryption, exactly when the channel is enabled and no bucket
    was given; the rendered template has, as [bucketName], the ARN of the
    bucket that was given, or else of the one created, and as [prefix] the
    prefix of the log configuration. *)
Theorem resolveBucket_spec (scope : Construct) (id : string) (props : Props) :
  let node := newConstruct scope id in
  let tree := fst (ExperimentTemplate_new scope id props []) in
  let lc := ExperimentTemplateProps.logConfiguration props in
  filter isBucket tree =
    (if needsDefault LogConfiguration.s3LoggingEnabled
          LogConfiguration.s3LoggingBucket lc
     then [Bucket node "ArtifactsBucket" {| encryption := KMS_MANAGED |}]
     else []) /\
  map (fun p =>
         option_map LogConfigurationProperty.s3Configuration
           (CfnExperimentTemplateProps.logConfiguration p))
      (templatesOf tree) =
    (if bothChannelsEnabled lc
     then [option_map
             (fun c =>
                {| S3ConfigurationProperty.bucketName :=
                     match LogConfiguration.s3LoggingBucket c with
                     | Some b => bucketArn b
                     | None => Bucket_bucketArn node "ArtifactsBucket"
                     end;
                   S3ConfigurationProperty.prefix :=
                     LogConfiguration.s3LoggingPrefix c |})
             lc]
     else []).
Proof.
  by_cases props; split; reflexivity.
Qed.


(** X11. When construction completes (no log configuration, or both
    channels enabled) exactly one template is created; it has the
    description of the props, the stop conditions rendered in order, the
    strings of the two experiment options and, when there is a log
    configuration, its schema version.  Otherwise no template is created. *)
Theorem template_fields_spec (scope : Construct) (id : string) (props : Props) :
  let tree := fst (ExperimentTemplate_new scope id props []) in
  let lc := ExperimentTemplateProps.logConfiguration props in
  let only {A : Type} (a : A) : list A :=
    if bothChannelsEnabled lc then [a] else [] in
  isOk (snd (ExperimentTemplate_new scope id props [])) = bothChannelsEnabled lc /\
  map CfnExperimentTemplateProps.description (templatesOf tree)
    = only (ExperimentTemplateProps.description props) /\
  map CfnExperimentTemplateProps.stopConditions (templatesOf tree)
    = only (map renderCondition (ExperimentTemplateProps.stopConditions props)) /\
  map CfnExperimentTemplateProps.experimentOptions (templatesOf tree)
    = only {| ExperimentOptionsProperty.accountTargeting :=
                AccountTargeting_value (ExperimentTemplateProps.accountTargeting props);
              ExperimentOptionsProperty.emptyTargetResolutionMode :=
                EmptyTargetResolutionMode_value
                  (ExperimentTemplateProps.emptyTargetResolutionMode props) |} /\
  map (fun p => option_map LogConfigurationProperty.logSchemaVersion
                  (CfnExperimentTemplateProps.logConfiguration p))
      (templatesOf tree)
    = only (option_map LogConfiguration.logSchemaVersion lc).
Proof.
  by_cases props; repeat split.
Qed.

End WithCdk.

End ExperimentTemplateExtra.

(** ** aws-memorydb/user.ts: the constructor in the construct tree *)

Module UserConstructSpec.
Import Cdk aws_memorydb MemoryDB MemoryDBRun UserConstruct.

Section WithCdk.
Context {cdk : AwsCdkLib}.

Lemma User_constructor_run (scope : Construct) (id : string)
    (props : UserProps.t) (tree : list (Node Construct)) :
  let this := newConstruct scope id in
  let node := UserNode scope id (physicalName this props) in
  User_constructor scope id props tree =
  match validateUserName props with
  | inl e => (tree ++ [node], Throw e)
  | inr _ =>
      match validateAuthenticationSettings props with
      | inl e => (tree ++ [node], Throw e)
      | inr _ =>
          ((tree ++ [node]) ++ [CfnUserNode (createdUser scope id props)],
           Ok (handleOf (createdUser scope id props)))
      end
  end.
Proof.
  unfold User_constructor, super, createResource,
    Build.bind, Build.lift, Build.attach, Build.ret.
  cbn [fst snd].
  destruct (validateUserName props); [reflexivity |].
  destruct (validateAuthenticationSettings props); reflexivity.
Qed.

(** C5, as amended. [new User] first makes the new construct a child of
    [scope] (the call of [super]).  Then either both validations pass and
    exactly one [CfnUser] is created, after that construct and under it; or
    the first validation that fails throws before any [CfnUser] is created,
    and the tree is left with the new construct attached and nothing else
    added. *)
Theorem User_constructor_create_is_atomic (scope : Construct) (id : string)
    (props : UserProps.t) (tree : list (Node Construct)) :
  let this := newConstruct scope id in
  let node := UserNode scope id (physicalName this props) in
  (validateUserName props = Ok tt /\
   validateAuthenticationSettings props = Ok tt /\
   User_constructor scope id props tree =
     (tree ++ [node; CfnUserNode (createdUser scope id props)],
      Ok (handleOf (createdUser scope id props))) /\
   cfnUsersOf (fst (User_constructor scope id props tree)) =
     cfnUsersOf tree ++ [createdUser scope id props] /\
   CfnUser.scope (createdUser scope id props) = this) \/
  (exists e,
     (validateUserName props = Throw e \/
      validateUserName props = Ok tt /\
      validateAuthenticationSettings props = Throw e) /\
     User_constructor scope id props tree = (tree ++ [node], Throw e) /\
     cfnUsersOf (fst (User_constructor scope id props tree)) = cfnUsersOf tree).
Proof.
  intros this node. rewrite (User_constructor_run scope id props tree).
  fold this. fold node.
  assert (Hnode : cfnUsersOf (tree ++ [node]) = cfnUsersOf tree).
  { unfold cfnUsersOf. rewrite flat_map_app. cbn. apply app_nil_r. }
  destruct (validateUserName props) as [e | []].
  - right. exists e. repeat split; auto.
  - destruct (validateAuthenticationSettings props) as [e | []].
    + right. exists e. repeat split; auto.
    + left. repeat split.
      * rewrite <- app_assoc. reflexivity.
      * cbn [fst]. unfold cfnUsersOf at 1. rewrite flat_map_app.
        fold (cfnUsersOf (tree ++ [node])). rewrite Hnode. reflexivity.
Qed.

End WithCdk.

(** C5, as stated, fails: a [PASSWORD] user without passwords is rejected by
    [validateAuthenticationSettings], and the construct is by then a child
    of its scope. *)
Lemma failed_User_stays_attached :
  ~ allOrNothing (cdk := Sample.lib) Sample.app "User"
      {| UserProps.userName := None; UserProps.accessString := None;
         UserProps.authenticationType := PASSWORD;
         UserProps.passwords := None |} [].
Proof.
  unfold allOrNothing. intros [(_ & H & _) | (_ & H)].
  - vm_compute in H. discriminate H.
  - vm_compute in H. discriminate H.
Qed.

End UserConstructSpec.
